(** * Gated recurrent cells (LSTM / GRU) and their sequence models

    A shallow embedding of the notebook "Count 1s in a sequence using LSTM
    and GRU cells": the classes [LSTMCell], [LSTMModel], [GRUCell] and
    [GRUModel], together with the PyTorch operations they call
    ([torch.nn.Linear], [view], [chunk], broadcasting [+] and [torch.mul],
    elementwise [sigmoid] / [tanh]).

    Tensors handed to the cells are 2-D (batch x features); model inputs are
    3-D (batch x time x features).  Scalars are kept abstract (class
    [Scalar]), so every structural statement holds for whatever arithmetic
    the tensors carry; the instance over [R] gives the exact-arithmetic
    reading. *)

From Stdlib Require Import String.
From Stdlib Require Import List Arith PeanoNat Lia Bool.
From Stdlib Require Import Reals Lra.
From Stdlib Require Import ZArith.
Import ListNotations.

Set Implicit Arguments.

(** ** Scalars *)

Class Scalar (T : Type) : Type := {
  s_zero : T;
  s_one : T;
  s_add : T -> T -> T;
  s_sub : T -> T -> T;
  s_mul : T -> T -> T;
  s_sigmoid : T -> T;
  s_tanh : T -> T
}.

Declare Scope scalar_scope.
Delimit Scope scalar_scope with sc.
Infix ":+:" := s_add (at level 50, left associativity) : scalar_scope.
Infix ":-:" := s_sub (at level 50, left associativity) : scalar_scope.
Infix ":*:" := s_mul (at level 40, left associativity) : scalar_scope.

(** ** Python exceptions and the method monad *)

Inductive PyExn : Type :=
| RuntimeError    (* torch: shape mismatch, invalid view *)
| AttributeError  (* attribute access on None *)
| TypeError       (* None passed where a tensor is required *)
| ValueError.     (* tuple unpacking with the wrong arity *)

Inductive Result (A : Type) : Type :=
| Ok (a : A)
| Raise (e : PyExn).
Arguments Ok {A} a.
Arguments Raise {A} e.

(** A method of an object of type [S]: it may read and update [self] and
    either returns a value or raises. *)
Definition M (S A : Type) : Type := S -> Result A * S.

Definition ret {S A} (a : A) : M S A := fun s => (Ok a, s).
Definition raise {S A} (e : PyExn) : M S A := fun s => (Raise e, s).
Definition lift {S A} (r : Result A) : M S A := fun s => (r, s).
Definition get_self {S} : M S S := fun s => (Ok s, s).
Definition bind {S A B} (m : M S A) (k : A -> M S B) : M S B :=
  fun s => match m s with
           | (Ok a, s') => k a s'
           | (Raise e, s') => (Raise e, s')
           end.

(** [self.field(...)]: run a method of a sub-module held in an attribute. *)
Definition call {S S' A} (field : S -> S') (set_field : S' -> S -> S)
    (m : M S' A) : M S A :=
  fun s => let (r, s') := m (field s) in (r, set_field s' s).

Declare Scope method_scope.
Delimit Scope method_scope with method.
Notation "x <- m ;; k" := (bind m (fun x => k))
  (at level 61, m at next level, right associativity) : method_scope.
Notation "' p <- m ;; k" := (bind m (fun x => match x with p => k end))
  (at level 61, p pattern, m at next level, right associativity) : method_scope.
Open Scope method_scope.

(** [for i in idxs: acc = body(i, acc)] *)
Fixpoint for_range {S A} (idxs : list nat) (body : nat -> A -> M S A)
    (acc : A) : M S A :=
  match idxs with
  | [] => ret acc
  | i :: rest => acc' <- body i acc ;; for_range rest body acc'
  end.

(** A method is read-only when it never changes [self]. *)
Definition read_only {S A} (m : M S A) : Prop := forall s, snd (m s) = s.

(** ** Lists *)

Fixpoint zip_with {A B C} (f : A -> B -> C) (l1 : list A) (l2 : list B)
    : list C :=
  match l1, l2 with
  | a :: l1', b :: l2' => f a b :: zip_with f l1' l2'
  | _, _ => []
  end.

Definition div_ceil (n d : nat) : nat := (n + d - 1) / d.

(** Broadcasting of one dimension: equal sizes, or one of them is 1. *)
Definition broadcast_dim (a b : nat) : option nat :=
  if a =? b then Some a
  else if a =? 1 then Some b
  else if b =? 1 then Some a
  else None.

(** Stretch a size-1 dimension of declared size [from] to size [to]. *)
Definition expand {A} (from to : nat) (l : list A) : list A :=
  if from =? to then l
  else match l with
       | [x] => repeat x to
       | _ => l
       end.

Section Tensors.

Context {T : Type} `{Scalar T}.
Local Open Scope scalar_scope.

(** ** Tensors *)

(** A 2-D tensor: [rows t] holds [size(0)] rows, each of [ncols t = size(1)]
    entries.  The column count is stored because a tensor with no rows still
    has a width that torch checks. *)
Record Tensor : Type := mkTensor { ncols : nat; rows : list (list T) }.

Definition nrows (t : Tensor) : nat := length (rows t).

Definition wf_tensor (t : Tensor) : Prop :=
  Forall (fun r => length r = ncols t) (rows t).

Definition has_shape (t : Tensor) (r c : nat) : Prop :=
  nrows t = r /\ ncols t = c /\ wf_tensor t.

(** Entry [t[i, j]] (zero outside the tensor). *)
Definition at2 (t : Tensor) (i j : nat) : T :=
  nth j (nth i (rows t) []) s_zero.

(** The tensor of the given shape whose [(i, j)] entry is [f i j]. *)
Definition tabulate (r c : nat) (f : nat -> nat -> T) : Tensor :=
  mkTensor c (map (fun i => map (f i) (seq 0 c)) (seq 0 r)).

(** A 3-D tensor batch x time x features: [items x] holds one sequence per
    batch element, each a list of [size1 x] vectors of [size2 x] entries. *)
Record Tensor3 : Type :=
  mkTensor3 { size1 : nat; size2 : nat; items : list (list (list T)) }.

Definition size0 (x : Tensor3) : nat := length (items x).

Definition wf_tensor3 (x : Tensor3) : Prop :=
  Forall (fun s => length s = size1 x /\
                   Forall (fun v => length v = size2 x) s) (items x).

(** [x[:, seq, :]] *)
Definition slice (x : Tensor3) (seq : nat) : Tensor :=
  mkTensor (size2 x) (map (fun s => nth seq s []) (items x)).

(** [torch.zeros((r, c))] *)
Definition zeros (r c : nat) : Tensor :=
  mkTensor c (repeat (repeat s_zero c) r).

(** Elementwise unary operations: [t.sigmoid()], [t.tanh()], [1 - t]. *)
Definition t_map (f : T -> T) (t : Tensor) : Tensor :=
  mkTensor (ncols t) (map (map f) (rows t)).

Definition t_sigmoid : Tensor -> Tensor := t_map s_sigmoid.
Definition t_tanh : Tensor -> Tensor := t_map s_tanh.
Definition t_one_minus : Tensor -> Tensor := t_map (fun z => s_one :-: z).

(** Elementwise binary operations with torch's broadcasting: the two shapes
    must agree in each dimension or one of them must be 1 there. *)
Definition t_binop (f : T -> T -> T) (a b : Tensor) : Result Tensor :=
  match broadcast_dim (nrows a) (nrows b),
        broadcast_dim (ncols a) (ncols b) with
  | Some r, Some c =>
      Ok (mkTensor c
            (zip_with
               (fun ra rb =>
                  zip_with f (expand (ncols a) c ra) (expand (ncols b) c rb))
               (expand (nrows a) r (rows a))
               (expand (nrows b) r (rows b))))
  | _, _ => Raise RuntimeError
  end.

Definition t_add : Tensor -> Tensor -> Result Tensor := t_binop s_add.
Definition t_mul : Tensor -> Tensor -> Result Tensor := t_binop s_mul.

(** [t.view(-1, t.size(1))] on a 2-D tensor: the shape is unchanged, but
    torch rejects the call when [size(1) = 0] (the tensor is then empty and
    the [-1] dimension cannot be inferred). *)
Definition view_flat (t : Tensor) : Result Tensor :=
  if ncols t =? 0 then Raise RuntimeError else Ok t.

(** [t.split(split_size, 1)]: consecutive column blocks of [split_size]
    columns, the last one possibly narrower. *)
Definition split_cols (split_size : nat) (t : Tensor) : list Tensor :=
  map (fun k =>
         mkTensor (Nat.min split_size (ncols t - k * split_size))
           (map (fun r => firstn split_size (skipn (k * split_size) r))
              (rows t)))
      (seq 0 (div_ceil (ncols t) split_size)).

(** [t.chunk(chunks, 1)]: blocks of [ceil(size(1) / chunks)] columns; an
    empty dimension yields [chunks] empty blocks. *)
Definition chunk (chunks : nat) (t : Tensor) : list Tensor :=
  let split_size := div_ceil (ncols t) chunks in
  if split_size =? 0
  then repeat (mkTensor 0 (map (fun _ => []) (rows t))) chunks
  else split_cols split_size t.

(** [a, b, c, d = l] *)
Definition unpack4 {A} (l : list A) : Result (A * A * A * A) :=
  match l with
  | [a; b; c; d] => Ok (a, b, c, d)
  | _ => Raise ValueError
  end.

(** ** torch.nn.Linear *)

(** Inner product, accumulated from the left starting at zero. *)
Definition dot (xs ws : list T) : T :=
  fold_left s_add (zip_with s_mul xs ws) s_zero.

(** [weight] has shape out_features x in_features, [bias] has out_features
    entries. *)
Record Linear : Type := mkLinear {
  in_features : nat;
  out_features : nat;
  weight : Tensor;
  bias : list T
}.

Definition wf_linear (l : Linear) : Prop :=
  has_shape (weight l) (out_features l) (in_features l) /\
  length (bias l) = out_features l.

(** [torch.nn.functional.linear(input, W, b) = input @ W.T + b].  Every
    entry is summed in one fixed order, whatever the number of rows of
    [input]; torch chooses the order of summation by the shape of the
    product, so that over floats a row is the same in two runs only when
    the inputs of both have one shape.  The statements below compare runs
    on inputs of equal shape. *)
Definition F_linear (input W : Tensor) (b : list T) : Result Tensor :=
  if ncols input =? ncols W
  then Ok (mkTensor (nrows W)
             (map (fun x => zip_with (fun w bk => dot x w :+: bk) (rows W) b)
                (rows input)))
  else Raise RuntimeError.

(** [Linear.forward]; the argument is a Python value that may be [None]. *)
Definition Linear_forward (input : option Tensor) : M Linear Tensor :=
  self <- get_self ;;
  match input with
  | None => raise TypeError
  | Some x => lift (F_linear x (weight self) (bias self))
  end.

(** ** LSTMCell *)

(** [x_fc = Linear(input_size, 4 * hidden_size)],
    [h_fc = Linear(hidden_size, 4 * hidden_size)]. *)
Record LSTMCell : Type := mkLSTMCell {
  lstm_input_size : nat;
  lstm_hidden_size : nat;
  x_fc : Linear;
  h_fc : Linear
}.

Definition set_x_fc (l : Linear) (c : LSTMCell) : LSTMCell :=
  mkLSTMCell (lstm_input_size c) (lstm_hidden_size c) l (h_fc c).
Definition set_h_fc (l : Linear) (c : LSTMCell) : LSTMCell :=
  mkLSTMCell (lstm_input_size c) (lstm_hidden_size c) (x_fc c) l.

(** The shapes [LSTMCell.__init__(input_size, hidden_size)] establishes. *)
Definition wf_LSTMCell (c : LSTMCell) : Prop :=
  wf_linear (x_fc c) /\ wf_linear (h_fc c) /\
  in_features (x_fc c) = lstm_input_size c /\
  out_features (x_fc c) = 4 * lstm_hidden_size c /\
  in_features (h_fc c) = lstm_hidden_size c /\
  out_features (h_fc c) = 4 * lstm_hidden_size c.

(** [h_t_1.view(-1, h_t_1.size(1))] where [h_t_1] may be [None]. *)
Definition view_flat_opt (t : option Tensor) : Result Tensor :=
  match t with
  | None => Raise AttributeError
  | Some t => view_flat t
  end.

(** [LSTMCell.forward(x_t, hidden)]; [hidden] defaults to [(None, None)]. *)
Definition LSTMCell_forward (x_t : Tensor)
    (hidden : option Tensor * option Tensor) : M LSTMCell (Tensor * Tensor) :=
  let '(h_t_1, c_t_1) := hidden in
  x_t <- lift (view_flat x_t) ;;
  h_t_1 <- lift (view_flat_opt h_t_1) ;;
  c_t_1 <- lift (view_flat_opt c_t_1) ;;
  gx <- call x_fc set_x_fc (Linear_forward (Some x_t)) ;;
  gh <- call h_fc set_h_fc (Linear_forward (Some h_t_1)) ;;
  gates <- lift (t_add gx gh) ;;
  '(i_t, f_t, candidate_c_t, o_t) <- lift (unpack4 (chunk 4 gates)) ;;
  let i_t := t_sigmoid i_t in
  let f_t := t_sigmoid f_t in
  let candidate_c_t := t_tanh candidate_c_t in
  let o_t := t_sigmoid o_t in
  fc <- lift (t_mul f_t c_t_1) ;;
  ic <- lift (t_mul i_t candidate_c_t) ;;
  c_t <- lift (t_add fc ic) ;;
  h_t <- lift (t_mul o_t (t_tanh c_t)) ;;
  ret (h_t, c_t).


(** ** LSTMModel *)

Record LSTMModel : Type := mkLSTMModel {
  lstmm_hidden_size : nat;
  lstm : LSTMCell;
  lstm_fc : Linear
}.

Definition set_lstm (c : LSTMCell) (m : LSTMModel) : LSTMModel :=
  mkLSTMModel (lstmm_hidden_size m) c (lstm_fc m).
Definition set_lstm_fc (l : Linear) (m : LSTMModel) : LSTMModel :=
  mkLSTMModel (lstmm_hidden_size m) (lstm m) l.

(** What [LSTMModel.__init__(input_size, hidden_size, output_size)]
    establishes. *)
Definition wf_LSTMModel (m : LSTMModel) : Prop :=
  wf_LSTMCell (lstm m) /\ wf_linear (lstm_fc m) /\
  lstm_hidden_size (lstm m) = lstmm_hidden_size m /\
  in_features (lstm_fc m) = lstmm_hidden_size m.

(** [LSTMModel.forward(x)]; [.to(x.device)] only moves the zero tensors to
    the input's device and is the identity here. *)
Definition LSTMModel_forward (x : Tensor3) : M LSTMModel Tensor :=
  self <- get_self ;;
  let c_t := zeros (size0 x) (lstmm_hidden_size self) in
  let h_t := zeros (size0 x) (lstmm_hidden_size self) in
  '(h_t, c_t) <-
    for_range (seq 0 (size1 x))
      (fun seq '(h_t, c_t) =>
         call lstm set_lstm
           (LSTMCell_forward (slice x seq) (Some h_t, Some c_t)))
      (h_t, c_t) ;;
  call lstm_fc set_lstm_fc (Linear_forward (Some h_t)).

(** ** GRUCell *)

Record GRUCell : Type := mkGRUCell {
  gru_input_size : nat;
  gru_hidden_size : nat;
  x_r_fc : Linear;
  x_z_fc : Linear;
  x_h_fc : Linear;
  h_r_fc : Linear;
  h_z_fc : Linear;
  hr_h_fc : Linear
}.

Definition set_x_r_fc (l : Linear) (c : GRUCell) : GRUCell :=
  mkGRUCell (gru_input_size c) (gru_hidden_size c)
    l (x_z_fc c) (x_h_fc c) (h_r_fc c) (h_z_fc c) (hr_h_fc c).
Definition set_x_z_fc (l : Linear) (c : GRUCell) : GRUCell :=
  mkGRUCell (gru_input_size c) (gru_hidden_size c)
    (x_r_fc c) l (x_h_fc c) (h_r_fc c) (h_z_fc c) (hr_h_fc c).
Definition set_x_h_fc (l : Linear) (c : GRUCell) : GRUCell :=
  mkGRUCell (gru_input_size c) (gru_hidden_size c)
    (x_r_fc c) (x_z_fc c) l (h_r_fc c) (h_z_fc c) (hr_h_fc c).
Definition set_h_r_fc (l : Linear) (c : GRUCell) : GRUCell :=
  mkGRUCell (gru_input_size c) (gru_hidden_size c)
    (x_r_fc c) (x_z_fc c) (x_h_fc c) l (h_z_fc c) (hr_h_fc c).
Definition set_h_z_fc (l : Linear) (c : GRUCell) : GRUCell :=
  mkGRUCell (gru_input_size c) (gru_hidden_size c)
    (x_r_fc c) (x_z_fc c) (x_h_fc c) (h_r_fc c) l (hr_h_fc c).
Definition set_hr_h_fc (l : Linear) (c : GRUCell) : GRUCell :=
  mkGRUCell (gru_input_size c) (gru_hidden_size c)
    (x_r_fc c) (x_z_fc c) (x_h_fc c) (h_r_fc c) (h_z_fc c) l.

(** The shapes [GRUCell.__init__(input_size, hidden_size)] establishes. *)
Definition wf_GRUCell (c : GRUCell) : Prop :=
  wf_linear (x_r_fc c) /\ wf_linear (x_z_fc c) /\ wf_linear (x_h_fc c) /\
  wf_linear (h_r_fc c) /\ wf_linear (h_z_fc c) /\ wf_linear (hr_h_fc c) /\
  in_features (x_r_fc c) = gru_input_size c /\
  in_features (x_z_fc c) = gru_input_size c /\
  in_features (x_h_fc c) = gru_input_size c /\
  in_features (h_r_fc c) = gru_hidden_size c /\
  in_features (h_z_fc c) = gru_hidden_size c /\
  in_features (hr_h_fc c) = gru_hidden_size c /\
  out_features (x_r_fc c) = gru_hidden_size c /\
  out_features (x_z_fc c) = gru_hidden_size c /\
  out_features (x_h_fc c) = gru_hidden_size c /\
  out_features (h_r_fc c) = gru_hidden_size c /\
  out_features (h_z_fc c) = gru_hidden_size c /\
  out_features (hr_h_fc c) = gru_hidden_size c.

(** [torch.mul(r_t, h_t_1)] where [h_t_1] may be [None]. *)
Definition t_mul_opt (a : Tensor) (b : option Tensor) : Result Tensor :=
  match b with
  | None => Raise TypeError
  | Some b => t_mul a b
  end.

(** [GRUCell.forward(x_t, h_t_1)]; [h_t_1] defaults to [None]. *)
Definition GRUCell_forward (x_t : Tensor) (h_t_1 : option Tensor)
    : M GRUCell Tensor :=
  zx <- call x_z_fc set_x_z_fc (Linear_forward (Some x_t)) ;;
  zh <- call h_z_fc set_h_z_fc (Linear_forward h_t_1) ;;
  z_pre <- lift (t_add zx zh) ;;
  let z_t := t_sigmoid z_pre in
  rx <- call x_r_fc set_x_r_fc (Linear_forward (Some x_t)) ;;
  rh <- call h_r_fc set_h_r_fc (Linear_forward h_t_1) ;;
  r_pre <- lift (t_add rx rh) ;;
  let r_t := t_sigmoid r_pre in
  hx <- call x_h_fc set_x_h_fc (Linear_forward (Some x_t)) ;;
  rh_t_1 <- lift (t_mul_opt r_t h_t_1) ;;
  hh <- call hr_h_fc set_hr_h_fc (Linear_forward (Some rh_t_1)) ;;
  cand_pre <- lift (t_add hx hh) ;;
  let candidate_h_t := t_tanh cand_pre in
  keep <- lift (t_mul_opt z_t h_t_1) ;;
  new <- lift (t_mul (t_one_minus z_t) candidate_h_t) ;;
  h_t <- lift (t_add keep new) ;;
  ret h_t.


(** ** GRUModel *)

Record GRUModel : Type := mkGRUModel {
  grum_hidden_size : nat;
  gru : GRUCell;
  gru_fc : Linear
}.

Definition set_gru (c : GRUCell) (m : GRUModel) : GRUModel :=
  mkGRUModel (grum_hidden_size m) c (gru_fc m).
Definition set_gru_fc (l : Linear) (m : GRUModel) : GRUModel :=
  mkGRUModel (grum_hidden_size m) (gru m) l.

(** What [GRUModel.__init__(input_size, hidden_size, output_size)]
    establishes. *)
Definition wf_GRUModel (m : GRUModel) : Prop :=
  wf_GRUCell (gru m) /\ wf_linear (gru_fc m) /\
  gru_hidden_size (gru m) = grum_hidden_size m /\
  in_features (gru_fc m) = grum_hidden_size m.

(** [GRUModel.forward(x)] *)
Definition GRUModel_forward (x : Tensor3) : M GRUModel Tensor :=
  self <- get_self ;;
  let h_t := zeros (size0 x) (grum_hidden_size self) in
  h_t <-
    for_range (seq 0 (size1 x))
      (fun seq h_t =>
         call gru set_gru (GRUCell_forward (slice x seq) (Some h_t)))
      h_t ;;
  call gru_fc set_gru_fc (Linear_forward (Some h_t)).

(** ** Reference formulas

    The per-entry equations of the cells and the step-indexed recurrence of
    the sequence models, written out independently of the tensor plumbing
    above. *)

(** Entry [(b, k)] of [input @ W.T + bias]. *)
Definition affine (l : Linear) (input : Tensor) (b k : nat) : T :=
  dot (nth b (rows input) []) (nth k (rows (weight l)) [])
  :+: nth k (bias l) s_zero.

Section LSTM_equations.
Variables (self : LSTMCell) (x_t h_t_1 c_t_1 : Tensor).

(** Pre-activation [gates[b, k]], [k < 4 * hidden_size]. *)
Definition lstm_gates (b k : nat) : T :=
  affine (x_fc self) x_t b k :+: affine (h_fc self) h_t_1 b k.

Definition lstm_i (b j : nat) : T := s_sigmoid (lstm_gates b j).
Definition lstm_f (b j : nat) : T :=
  s_sigmoid (lstm_gates b (lstm_hidden_size self + j)).
Definition lstm_g (b j : nat) : T :=
  s_tanh (lstm_gates b (2 * lstm_hidden_size self + j)).
Definition lstm_o (b j : nat) : T :=
  s_sigmoid (lstm_gates b (3 * lstm_hidden_size self + j)).

Definition lstm_c (b j : nat) : T :=
  lstm_f b j :*: at2 c_t_1 b j :+: lstm_i b j :*: lstm_g b j.
Definition lstm_h (b j : nat) : T :=
  lstm_o b j :*: s_tanh (lstm_c b j).
End LSTM_equations.

Section GRU_equations.
Variables (self : GRUCell) (x_t h_t_1 : Tensor).

Definition gru_z (b j : nat) : T :=
  s_sigmoid (affine (x_z_fc self) x_t b j :+: affine (h_z_fc self) h_t_1 b j).
Definition gru_r (b j : nat) : T :=
  s_sigmoid (affine (x_r_fc self) x_t b j :+: affine (h_r_fc self) h_t_1 b j).
(** [r_t (.) h_{t-1}] as a tensor. *)
Definition gru_rh : Tensor :=
  tabulate (nrows h_t_1) (gru_hidden_size self)
    (fun b j => gru_r b j :*: at2 h_t_1 b j).
Definition gru_candidate (b j : nat) : T :=
  s_tanh (affine (x_h_fc self) x_t b j :+: affine (hr_h_fc self) gru_rh b j).
Definition gru_h (b j : nat) : T :=
  gru_z b j :*: at2 h_t_1 b j :+: (s_one :-: gru_z b j) :*: gru_candidate b j.
End GRU_equations.

(** Carried state after [k] time steps: zero state for [k = 0], then one
    cell invocation on slice [k] applied to the state after [k] steps. *)
Fixpoint lstm_state_after (m : LSTMModel) (x : Tensor3) (k : nat)
    : Result (Tensor * Tensor) :=
  match k with
  | 0 => Ok (zeros (size0 x) (lstmm_hidden_size m),
             zeros (size0 x) (lstmm_hidden_size m))
  | S k' =>
      match lstm_state_after m x k' with
      | Ok (h, c) =>
          fst (LSTMCell_forward (slice x k') (Some h, Some c) (lstm m))
      | Raise e => Raise e
      end
  end.

Fixpoint gru_state_after (m : GRUModel) (x : Tensor3) (k : nat)
    : Result Tensor :=
  match k with
  | 0 => Ok (zeros (size0 x) (grum_hidden_size m))
  | S k' =>
      match gru_state_after m x k' with
      | Ok h => fst (GRUCell_forward (slice x k') (Some h) (gru m))
      | Raise e => Raise e
      end
  end.

(** Stacking two batches along the batch dimension. *)
Definition vstack (a b : Tensor) : Tensor :=
  mkTensor (ncols a) (rows a ++ rows b).

Definition batch_of (time width : nat) (seqs : list (list (list T)))
    : Tensor3 :=
  mkTensor3 time width seqs.

(** A sequence of [time] vectors of [width] entries. *)
Definition wf_sequence (time width : nat) (s : list (list T)) : Prop :=
  length s = time /\ Forall (fun v => length v = width) s.

(** A [Linear] whose weights all equal [w] and biases all equal [b]. *)
Definition const_linear (n_in n_out : nat) (w b : T) : Linear :=
  mkLinear n_in n_out (mkTensor n_in (repeat (repeat w n_in) n_out))
    (repeat b n_out).

End Tensors.

Arguments Tensor T : clear implicits.
Arguments Tensor3 T : clear implicits.
Arguments Linear T : clear implicits.
Arguments LSTMCell T : clear implicits.
Arguments LSTMModel T : clear implicits.
Arguments GRUCell T : clear implicits.
Arguments GRUModel T : clear implicits.

(** ** Further operations on the models' data *)

Section MoreTensors.

Context {T : Type} `{Scalar T}.

(** [x[:, :k, :]]: the first [k] time steps of every sequence. *)
Definition take_steps (k : nat) (x : Tensor3 T) : Tensor3 T :=
  mkTensor3 (Nat.min k (size1 x)) (size2 x) (map (firstn k) (items x)).

(** The [Linear] layer made of rows [k * h, ..., k * h + h - 1] of the
    weight and bias of [l]: the part of a fused projection that feeds the
    [k]-th gate. *)
Definition linear_block (l : Linear T) (k h : nat) : Linear T :=
  mkLinear (in_features l) h
    (mkTensor (ncols (weight l)) (firstn h (skipn (k * h) (rows (weight l)))))
    (firstn h (skipn (k * h) (bias l))).

(** The pre-activation of gate [k] computed by its own pair of layers. *)
Definition gate_pre (self : LSTMCell T) (k : nat) (x_t h_t_1 : Tensor T)
    : Result (Tensor T) :=
  let xk := linear_block (x_fc self) k (lstm_hidden_size self) in
  let hk := linear_block (h_fc self) k (lstm_hidden_size self) in
  match F_linear x_t (weight xk) (bias xk),
        F_linear h_t_1 (weight hk) (bias hk) with
  | Ok gx, Ok gh => t_add gx gh
  | Raise e, _ => Raise e
  | _, Raise e => Raise e
  end.

(** The LSTM step with the four gates computed one at a time. *)
Definition LSTMCell_step_by_gate (self : LSTMCell T)
    (x_t h_t_1 c_t_1 : Tensor T) : Result (Tensor T * Tensor T) :=
  match gate_pre self 0 x_t h_t_1, gate_pre self 1 x_t h_t_1,
        gate_pre self 2 x_t h_t_1, gate_pre self 3 x_t h_t_1 with
  | Ok i_t, Ok f_t, Ok g_t, Ok o_t =>
      match t_mul (t_sigmoid f_t) c_t_1,
            t_mul (t_sigmoid i_t) (t_tanh g_t) with
      | Ok fc, Ok ic =>
          match t_add fc ic with
          | Ok c_t =>
              match t_mul (t_sigmoid o_t) (t_tanh c_t) with
              | Ok h_t => Ok (h_t, c_t)
              | Raise e => Raise e
              end
          | Raise e => Raise e
          end
      | Raise e, _ => Raise e
      | _, Raise e => Raise e
      end
  | Raise e, _, _, _ => Raise e
  | _, Raise e, _, _ => Raise e
  | _, _, Raise e, _ => Raise e
  | _, _, _, Raise e => Raise e
  end.

End MoreTensors.

(** ** generate_dataset

    [np.random] is an oracle: [randint_raw n] is the draw made by
    [np.random.randint(n)] for [n > 0], and [choice_raw size k n] the draws
    made by [np.random.choice(2, size, p=[k/n, 1 - k/n])].  Both thread the
    generator state. *)

Section Dataset.

Context {T : Type} `{Scalar T}.
Variable G : Type.
Variable randint_raw : nat -> G -> nat * G.
Variable choice_raw : nat -> nat -> nat -> G -> list nat * G.

(** [np.random.randint(high)]: raises ValueError ("low >= high") when
    [high <= 0]. *)
Definition np_randint (high : nat) : M G nat :=
  if high =? 0 then raise ValueError
  else fun g => let (r, g') := randint_raw high g in (Ok r, g').

(** What [np.random.choice(2, size, p=...)] promises: [size] draws, each 0
    or 1. *)
Definition choice_contract : Prop :=
  forall size k n g,
    length (fst (choice_raw size k n g)) = size /\
    Forall (fun b => b < 2) (fst (choice_raw size k n g)).

(** A list of [n] entries, each 0 or 1. *)
Definition is_bit_sequence (n : nat) (q : list nat) : Prop :=
  length q = n /\ Forall (fun b => b < 2) q.

(** [list(np.random.choice(2, size, p=[a, 1 - a]))] with [a = k / n]. *)
Definition np_choice2 (size k n : nat) : M G (list nat) :=
  fun g => let (l, g') := choice_raw size k n g in (Ok l, g').

(** Storing an integer in an [np.int8] array: the value wraps around
    modulo 256 into [-128, 127].  This is numpy before version 2; from
    version 2 on a value outside [-128, 127] raises OverflowError instead.
    Both agree on [-128, 127], and the statements about labels below are
    for sequence lengths of at most 127, where every label is in it. *)
Definition to_int8 (z : Z) : Z := ((z + 128) mod 256 - 128)%Z.

(** [.float()] of a 0/1 entry. *)
Definition float_of_bit (b : nat) : T :=
  match b with 0 => s_zero | _ => s_one end.

(** [torch.from_numpy(row).float().unsqueeze(-1)]: every entry becomes a
    vector of width 1. *)
Definition float_unsqueeze (sequence : list nat) : list (list T) :=
  map (fun b => [float_of_bit b]) sequence.

(** A [TensorDataset] of sequences and labels; sample [i] is the pair of
    their [i]-th entries.  Labels are kept as the integers whose [.float()]
    the tensor stores. *)
Record TensorDataset : Type := mkTensorDataset {
  ds_sequences : list (list (list T));
  ds_labels : list Z
}.

Definition generate_dataset (sequence_length samples : nat)
    : M G TensorDataset :=
  '(sequences, labels) <-
    for_range (seq 0 samples)
      (fun i '(sequences, labels) =>
         k <- np_randint sequence_length ;;
         sequence <- np_choice2 sequence_length k sequence_length ;;
         ret (sequences ++ [sequence],
              labels ++ [Z.of_nat (list_sum sequence)]))
      ([], []) ;;
  let labels := map to_int8 labels in
  ret (mkTensorDataset (map float_unsqueeze sequences) labels).

(** The mini-batch a [DataLoader] stacks from the chosen samples. *)
Definition collate (sequence_length : nat) (chosen : list (list (list T)))
    : Tensor3 T :=
  batch_of sequence_length 1 chosen.

End Dataset.

(** ** Text generation loop

    The pretrained model, [torch.topk(predictions[0, -1, :], 1)[1]] and the
    tokenizer are parameters; the loop around them is the notebook's. *)

Section TextGen.

Variables Mems Predictions : Type.
Variable model : list nat -> option Mems -> Predictions * Mems.
Variable top1 : Predictions -> nat.
Variable decode : nat -> String.string.
Variable eos_token : String.string.

Record GenState : Type := mkGenState {
  tokens_tensor : list nat;
  mems : option Mems;
  predicted_tokens : list String.string
}.

(** [for i in range(fuel): ...] with its [break]. *)
Fixpoint generate_loop (fuel : nat) (st : GenState) : GenState :=
  match fuel with
  | 0 => st
  | S fuel' =>
      let (predictions, mems') := model (tokens_tensor st) (mems st) in
      let predicted_index := top1 predictions in
      let predicted_token := decode predicted_index in
      if String.string_dec predicted_token eos_token
      then mkGenState (tokens_tensor st) (Some mems') (predicted_tokens st)
      else generate_loop fuel'
             (mkGenState (tokens_tensor st ++ [predicted_index]) (Some mems')
                (predicted_tokens st ++ [predicted_token]))
  end.

(** The cell run on the encoded seed text. *)
Definition generate (encoded_text : list nat) : GenState :=
  generate_loop 50 (mkGenState encoded_text None []).

End TextGen.

(** ** Exact-arithmetic scalars *)

Definition Rsigmoid (x : R) : R := (1 / (1 + exp (- x)))%R.

#[export] Instance R_Scalar : Scalar R := {|
  s_zero := 0%R;
  s_one := 1%R;
  s_add := Rplus;
  s_sub := Rminus;
  s_mul := Rmult;
  s_sigmoid := Rsigmoid;
  s_tanh := Rtrigo_def.tanh
|}.

(** ** Parameter initialisation

    Construction is modelled at the level of sampling laws: every parameter
    tensor records the distribution its data was last filled from. *)

Module ParamInit.

Inductive Law : Type :=
| Uniform (lo hi : R).

Record Param : Type := mkParam {
  p_shape : list nat;
  p_law : Law
}.

(** [tensor.uniform_(a, b)] *)
Definition uniform_ (a b : R) (p : Param) : Param :=
  mkParam (p_shape p) (Uniform a b).

Record LinearP : Type := mkLinearP {
  weight : Param;
  bias : Param
}.

(** [torch.nn.Linear(in_features, out_features)]: weight and bias are drawn
    from U(-sqrt k, sqrt k) with k = 1 / in_features. *)
Definition Linear__init__ (in_features out_features : nat) : LinearP :=
  let bound := sqrt (1 / INR in_features) in
  mkLinearP
    (mkParam [out_features; in_features] (Uniform (- bound) bound))
    (mkParam [out_features] (Uniform (- bound) bound)).

Definition Linear_parameters (l : LinearP) : list Param :=
  [weight l; bias l].

Definition Linear_map (f : Param -> Param) (l : LinearP) : LinearP :=
  mkLinearP (f (weight l)) (f (bias l)).

Record LSTMCellP : Type := mkLSTMCellP {
  lstm_input_size : nat;
  lstm_hidden_size : nat;
  x_fc : LinearP;
  h_fc : LinearP
}.

(** [self.parameters()] in registration order. *)
Definition LSTMCell_parameters (c : LSTMCellP) : list Param :=
  Linear_parameters (x_fc c) ++ Linear_parameters (h_fc c).

(** [LSTMCell.reset_parameters]: every parameter is refilled from
    U(-size, size). *)
Definition reset_parameters (self : LSTMCellP) : LSTMCellP :=
  let size := sqrt (3 / INR (lstm_hidden_size self)) in
  mkLSTMCellP (lstm_input_size self) (lstm_hidden_size self)
    (Linear_map (uniform_ (- size) size) (x_fc self))
    (Linear_map (uniform_ (- size) size) (h_fc self)).

Definition LSTMCell__init__ (input_size hidden_size : nat) : LSTMCellP :=
  reset_parameters
    (mkLSTMCellP input_size hidden_size
       (Linear__init__ input_size (4 * hidden_size))
       (Linear__init__ hidden_size (4 * hidden_size))).

Record GRUCellP : Type := mkGRUCellP {
  gru_input_size : nat;
  gru_hidden_size : nat;
  x_r_fc : LinearP;
  x_z_fc : LinearP;
  x_h_fc : LinearP;
  h_r_fc : LinearP;
  h_z_fc : LinearP;
  hr_h_fc : LinearP
}.

Definition GRUCell_parameters (c : GRUCellP) : list Param :=
  Linear_parameters (x_r_fc c) ++ Linear_parameters (x_z_fc c) ++
  Linear_parameters (x_h_fc c) ++ Linear_parameters (h_r_fc c) ++
  Linear_parameters (h_z_fc c) ++ Linear_parameters (hr_h_fc c).

(** [GRUCell.__init__]: six [Linear] layers, no re-initialisation. *)
Definition GRUCell__init__ (input_size hidden_size : nat) : GRUCellP :=
  mkGRUCellP input_size hidden_size
    (Linear__init__ input_size hidden_size)
    (Linear__init__ input_size hidden_size)
    (Linear__init__ input_size hidden_size)
    (Linear__init__ hidden_size hidden_size)
    (Linear__init__ hidden_size hidden_size)
    (Linear__init__ hidden_size hidden_size).

(** The law the specification asks for: U(-s, s), s = sqrt (3 / hidden_size). *)
Definition scaled_uniform (hidden_size : nat) : Law :=
  Uniform (- sqrt (3 / INR hidden_size)) (sqrt (3 / INR hidden_size)).

End ParamInit.

(** ** Concrete instances over the reals *)

Module Examples.

Definition R_linear (n_in n_out : nat) : Linear R :=
  const_linear n_in n_out 1%R 0%R.

(** [LSTMCell(1, 2)], [GRUCell(1, 2)] and the models around them with a
    one-unit output layer. *)
Definition lstm_cell : LSTMCell R :=
  mkLSTMCell 1 2 (R_linear 1 8) (R_linear 2 8).
Definition lstm_model : LSTMModel R :=
  mkLSTMModel 2 lstm_cell (R_linear 2 1).
Definition gru_cell : GRUCell R :=
  mkGRUCell 1 2 (R_linear 1 2) (R_linear 1 2) (R_linear 1 2)
    (R_linear 2 2) (R_linear 2 2) (R_linear 2 2).
Definition gru_model : GRUModel R :=
  mkGRUModel 2 gru_cell (R_linear 2 1).

(** A batch of two inputs of width 1 and matching 2 x 2 states. *)
Definition x_t : Tensor R := mkTensor 1 [[1%R]; [0%R]].
Definition state : Tensor R := mkTensor 2 [[0%R; 0%R]; [0%R; 0%R]].

Definition seq1 : list (list R) := [[1%R]; [0%R]; [1%R]].
Definition seq2 : list (list R) := [[0%R]; [0%R]; [1%R]].

(** One sequence with zero time steps and vectors of width 5. *)
Definition no_steps : Tensor3 R := mkTensor3 0 5 [[]].
(** One sequence with one time step of width 5. *)
Definition wide_step : Tensor3 R :=
  mkTensor3 1 5 [[[1%R; 0%R; 1%R; 1%R; 0%R]]].

End Examples.

Module MoreExamples.

(** Agrees with [Examples.seq1] on the first two time steps only. *)
Definition seq1_alt : list (list R) := [[1%R]; [0%R]; [0%R]].

(** A state with three rows. *)
Definition state3 : Tensor R :=
  mkTensor 2 [[0%R; 0%R]; [0%R; 0%R]; [0%R; 0%R]].

(** A generator that always draws 0 in [randint] and, accordingly, only
    ones in [choice] (its state counts the draws). *)
Definition randint0 (n : nat) (g : nat) : nat * nat := (0, S g).
Definition choice1 (size k n : nat) (g : nat) : list nat * nat :=
  (repeat 1 size, S g).

End MoreExamples.

(** * Properties *)

(** ** The method monad *)

Lemma read_only_ret {St A} (a : A) : read_only (ret (S := St) a).
Proof. intros s; reflexivity. Qed.

Lemma read_only_raise {St A} (e : PyExn) :
  read_only (raise (S := St) (A := A) e).
Proof. intros s; reflexivity. Qed.

Lemma read_only_lift {St A} (r : Result A) : read_only (lift (S := St) r).
Proof. intros s; reflexivity. Qed.

Lemma read_only_get_self {St} : read_only (get_self (S := St)).
Proof. intros s; reflexivity. Qed.

Lemma read_only_bind {St A B} (m : M St A) (k : A -> M St B) :
  read_only m -> (forall a, read_only (k a)) -> read_only (bind m k).
Proof.
  intros Hm Hk s. unfold bind.
  specialize (Hm s). destruct (m s) as [[a | e] s']; simpl in *; subst.
  - apply Hk.
  - reflexivity.
Qed.

Lemma read_only_call {St St' A} (field : St -> St') (set_field : St' -> St -> St)
    (m : M St' A) :
  (forall s, set_field (field s) s = s) ->
  read_only m -> read_only (call field set_field m).
Proof.
  intros Hlens Hm s. unfold call.
  specialize (Hm (field s)). destruct (m (field s)) as [r s']; simpl in *.
  subst. apply Hlens.
Qed.

Lemma read_only_for_range {St A} (body : nat -> A -> M St A) :
  (forall i acc, read_only (body i acc)) ->
  forall idxs acc, read_only (for_range idxs body acc).
Proof.
  intros Hbody idxs. induction idxs as [| i rest IH]; intros acc; simpl.
  - apply read_only_ret.
  - apply read_only_bind; [apply Hbody | intros a; apply IH].
Qed.

(** A read-only method is determined by the value it computes. *)
Lemma read_only_run {St A} (m : M St A) (s : St) :
  read_only m -> m s = (fst (m s), s).
Proof.
  intros Hm. specialize (Hm s). destruct (m s) as [r s']; simpl in *.
  now subst.
Qed.

Lemma run_call_read_only {St St' A} (field : St -> St') (set_field : St' -> St -> St)
    (m : M St' A) (s : St) :
  (forall s, set_field (field s) s = s) -> read_only m ->
  call field set_field m s = (fst (m (field s)), s).
Proof.
  intros Hlens Hm. unfold call. rewrite (read_only_run (m := m) (field s) Hm).
  simpl. now rewrite Hlens.
Qed.

Lemma for_range_app {St A} (body : nat -> A -> M St A) (l1 l2 : list nat)
    (acc : A) (s : St) :
  for_range (l1 ++ l2) body acc s =
  bind (for_range l1 body acc) (for_range l2 body) s.
Proof.
  revert acc s. induction l1 as [| i l1 IH]; intros acc s; simpl.
  - reflexivity.
  - unfold bind in *. destruct (body i acc s) as [[a | e] s'].
    + apply IH.
    + reflexivity.
Qed.

(** One more iteration of a loop over [range]: run the first [n]
    iterations, then the body at index [a + n]. *)
Lemma for_range_seq_succ {St A} (body : nat -> A -> M St A) (a n : nat)
    (acc : A) (s : St) :
  for_range (seq a (S n)) body acc s =
  bind (for_range (seq a n) body acc) (body (a + n)) s.
Proof.
  rewrite seq_S, for_range_app. unfold bind.
  destruct (for_range (seq a n) body acc s) as [[acc' | e] s']; simpl.
  - unfold bind, ret.
    destruct (body (a + n) acc' s') as [[r | e] s'']; reflexivity.
  - reflexivity.
Qed.


(** ** Forward passes never write to [self] *)

Section Frame.

Context {T : Type} `{Scalar T}.

Ltac lens := let s := fresh "s" in intros s; destruct s; reflexivity.

Ltac read_only_step :=
  match goal with
  | |- read_only (bind _ _) => apply read_only_bind; [| intro]
  | |- read_only (call _ _ _) => apply read_only_call; [lens |]
  | |- read_only (lift _) => apply read_only_lift
  | |- read_only (ret _) => apply read_only_ret
  | |- read_only (raise _) => apply read_only_raise
  | |- read_only get_self => apply read_only_get_self
  | |- read_only (match ?x with (_, _) => _ end) => destruct x
  | |- read_only (match ?x with None => _ | Some _ => _ end) => destruct x
  | |- read_only (let _ := _ in _) => cbv zeta
  end.

Lemma Linear_forward_read_only (input : option (Tensor T)) :
  read_only (Linear_forward input).
Proof. unfold Linear_forward. repeat read_only_step. Qed.

Lemma LSTMCell_forward_read_only (x_t : Tensor T) hidden :
  read_only (LSTMCell_forward x_t hidden).
Proof.
  unfold LSTMCell_forward. destruct hidden as [h c].
  repeat (read_only_step || apply Linear_forward_read_only).
Qed.

Lemma GRUCell_forward_read_only (x_t : Tensor T) h_t_1 :
  read_only (GRUCell_forward x_t h_t_1).
Proof.
  unfold GRUCell_forward.
  repeat (read_only_step || apply Linear_forward_read_only).
Qed.

Lemma LSTMModel_forward_read_only (x : Tensor3 T) :
  read_only (LSTMModel_forward x).
Proof.
  unfold LSTMModel_forward.
  repeat (read_only_step || apply Linear_forward_read_only).
  apply read_only_for_range. intros i [h c].
  apply read_only_call; [lens | apply LSTMCell_forward_read_only].
Qed.

Lemma GRUModel_forward_read_only (x : Tensor3 T) :
  read_only (GRUModel_forward x).
Proof.
  unfold GRUModel_forward.
  repeat (read_only_step || apply Linear_forward_read_only).
  apply read_only_for_range. intros i h.
  apply read_only_call; [lens | apply GRUCell_forward_read_only].
Qed.

(** ** The time loop as a recurrence on the step index *)

Lemma Linear_forward_value (l : Linear T) (x : Tensor T) :
  fst (Linear_forward (Some x) l) = F_linear x (weight l) (bias l).
Proof. reflexivity. Qed.

Lemma LSTMModel_loop (m : LSTMModel T) (x : Tensor3 T) (k : nat) :
  for_range (seq 0 k)
    (fun seq '(h_t, c_t) =>
       call lstm set_lstm
         (LSTMCell_forward (slice x seq) (Some h_t, Some c_t)))
    (zeros (size0 x) (lstmm_hidden_size m),
     zeros (size0 x) (lstmm_hidden_size m)) m
  = (lstm_state_after m x k, m).
Proof.
  induction k as [| k IH].
  - reflexivity.
  - rewrite for_range_seq_succ. unfold bind. rewrite IH.
    change (0 + k) with k. cbn [lstm_state_after].
    destruct (lstm_state_after m x k) as [[h c] | e]; [| reflexivity].
    apply run_call_read_only; [lens | apply LSTMCell_forward_read_only].
Qed.

Lemma GRUModel_loop (m : GRUModel T) (x : Tensor3 T) (k : nat) :
  for_range (seq 0 k)
    (fun seq h_t => call gru set_gru (GRUCell_forward (slice x seq) (Some h_t)))
    (zeros (size0 x) (grum_hidden_size m)) m
  = (gru_state_after m x k, m).
Proof.
  induction k as [| k IH].
  - reflexivity.
  - rewrite for_range_seq_succ. unfold bind. rewrite IH.
    change (0 + k) with k. cbn [gru_state_after].
    destruct (gru_state_after m x k) as [h | e]; [| reflexivity].
    apply run_call_read_only; [lens | apply GRUCell_forward_read_only].
Qed.

Lemma LSTMModel_forward_run (m : LSTMModel T) (x : Tensor3 T) :
  LSTMModel_forward x m =
  (match lstm_state_after m x (size1 x) with
   | Ok (h_t, _) => F_linear h_t (weight (lstm_fc m)) (bias (lstm_fc m))
   | Raise e => Raise e
   end, m).
Proof.
  unfold LSTMModel_forward, bind at 1, get_self. cbv zeta.
  unfold bind. rewrite LSTMModel_loop.
  destruct (lstm_state_after m x (size1 x)) as [[h c] | e]; [| reflexivity].
  rewrite run_call_read_only;
    [| lens | apply Linear_forward_read_only].
  now rewrite Linear_forward_value.
Qed.

Lemma GRUModel_forward_run (m : GRUModel T) (x : Tensor3 T) :
  GRUModel_forward x m =
  (match gru_state_after m x (size1 x) with
   | Ok h_t => F_linear h_t (weight (gru_fc m)) (bias (gru_fc m))
   | Raise e => Raise e
   end, m).
Proof.
  unfold GRUModel_forward, bind at 1, get_self. cbv zeta.
  unfold bind. rewrite GRUModel_loop.
  destruct (gru_state_after m x (size1 x)) as [h | e]; [| reflexivity].
  rewrite run_call_read_only;
    [| lens | apply Linear_forward_read_only].
  now rewrite Linear_forward_value.
Qed.

(** C5. Determinism as a two-run statement: running the same model twice in
    a row on the same input, the second pass (which starts from whatever
    the first pass left in the model) returns the same result as the first. *)
Theorem C5_forward_deterministic :
  (forall (m : LSTMModel T) (x : Tensor3 T),
     let (y1, m1) := LSTMModel_forward x m in
     let (y2, m2) := LSTMModel_forward x m1 in
     y1 = y2 /\ m2 = m) /\
  (forall (m : GRUModel T) (x : Tensor3 T),
     let (y1, m1) := GRUModel_forward x m in
     let (y2, m2) := GRUModel_forward x m1 in
     y1 = y2 /\ m2 = m).
Proof.
  split; intros m x.
  - rewrite (read_only_run m (LSTMModel_forward_read_only x)).
    rewrite (read_only_run m (LSTMModel_forward_read_only x)).
    now split.
  - rewrite (read_only_run m (GRUModel_forward_read_only x)).
    rewrite (read_only_run m (GRUModel_forward_read_only x)).
    now split.
Qed.

(** C9. A forward pass - a cell step, a whole sequence reduction with the
    output projection, or a single [Linear] - returns with every weight and
    bias of the object it ran on unchanged, whether it succeeds or raises. *)
Theorem C9_forward_leaves_parameters_unchanged :
  (forall (l : Linear T) input, snd (Linear_forward input l) = l) /\
  (forall (c : LSTMCell T) x_t hidden,
     snd (LSTMCell_forward x_t hidden c) = c) /\
  (forall (c : GRUCell T) x_t h_t_1,
     snd (GRUCell_forward x_t h_t_1 c) = c) /\
  (forall (m : LSTMModel T) x, snd (LSTMModel_forward x m) = m) /\
  (forall (m : GRUModel T) x, snd (GRUModel_forward x m) = m).
Proof.
  repeat split; intros.
  - apply Linear_forward_read_only.
  - apply LSTMCell_forward_read_only.
  - apply GRUCell_forward_read_only.
  - apply LSTMModel_forward_read_only.
  - apply GRUModel_forward_read_only.
Qed.

End Frame.

(** ** Lists as tabulated functions *)

Lemma seq_as_map (a n : nat) : seq a n = map (Nat.add a) (seq 0 n).
Proof.
  revert a. induction n as [| n IH]; intros a; simpl.
  - reflexivity.
  - rewrite Nat.add_0_r. f_equal.
    rewrite <- (seq_shift n 0), map_map, (IH (S a)).
    apply map_ext. intros k. lia.
Qed.

Lemma list_as_map {A} (l : list A) (d : A) :
  l = map (fun i => nth i l d) (seq 0 (length l)).
Proof.
  induction l as [| x l IH]; simpl.
  - reflexivity.
  - f_equal. rewrite <- (seq_shift (length l) 0), map_map. exact IH.
Qed.

Lemma map_as_map_seq {A B} (f : A -> B) (l : list A) (d : A) :
  map f l = map (fun i => f (nth i l d)) (seq 0 (length l)).
Proof.
  rewrite (list_as_map l d) at 1. now rewrite map_map.
Qed.

Lemma zip_with_map {A B C X} (f : A -> B -> C) (g : X -> A) (g' : X -> B)
    (l : list X) :
  zip_with f (map g l) (map g' l) = map (fun x => f (g x) (g' x)) l.
Proof. induction l as [| x l IH]; simpl; [reflexivity | now f_equal]. Qed.

Lemma zip_with_as_map {A B C} (f : A -> B -> C) (l1 : list A) (l2 : list B)
    (d1 : A) (d2 : B) :
  length l1 = length l2 ->
  zip_with f l1 l2 =
  map (fun k => f (nth k l1 d1) (nth k l2 d2)) (seq 0 (length l1)).
Proof.
  intros Hlen.
  rewrite (list_as_map l1 d1) at 1. rewrite (list_as_map l2 d2) at 1.
  rewrite <- Hlen. apply zip_with_map.
Qed.

Lemma zip_with_app {A B C} (f : A -> B -> C) (l1 l1' : list A) (l2 l2' : list B) :
  length l1 = length l2 ->
  zip_with f (l1 ++ l1') (l2 ++ l2') = zip_with f l1 l2 ++ zip_with f l1' l2'.
Proof.
  revert l2. induction l1 as [| a l1 IH]; intros [| b l2] Hlen;
    simpl in *; try discriminate; [reflexivity |].
  f_equal. apply IH. lia.
Qed.

Lemma firstn_seq_le (h a m : nat) : h <= m -> firstn h (seq a m) = seq a h.
Proof.
  revert a m. induction h as [| h IH]; intros a m Hle; simpl.
  - reflexivity.
  - destruct m as [| m]; [lia |]. simpl. f_equal. apply IH. lia.
Qed.

(** A block of [h] consecutive entries starting at [a]. *)
Lemma block_of_map_seq {A} (G : nat -> A) (a h n : nat) :
  a + h <= n ->
  firstn h (skipn a (map G (seq 0 n))) = map (fun j => G (a + j)) (seq 0 h).
Proof.
  intros Hle.
  rewrite skipn_map, firstn_map, skipn_seq, firstn_seq_le by lia.
  simpl. rewrite (seq_as_map a h), map_map. reflexivity.
Qed.

Lemma expand_same {A} (n : nat) (l : list A) : expand n n l = l.
Proof. unfold expand. now rewrite Nat.eqb_refl. Qed.

Lemma broadcast_dim_same (n : nat) : broadcast_dim n n = Some n.
Proof. unfold broadcast_dim. now rewrite Nat.eqb_refl. Qed.

Lemma div_ceil_4 (h : nat) : div_ceil (4 * h) 4 = h.
Proof.
  unfold div_ceil. symmetry.
  apply (Nat.div_unique (4 * h + 4 - 1) 4 h 3); lia.
Qed.

Lemma div_ceil_blocks (h : nat) : 0 < h -> div_ceil (4 * h) h = 4.
Proof.
  intros Hh. unfold div_ceil. symmetry.
  apply (Nat.div_unique (4 * h + h - 1) h 4 (h - 1)); lia.
Qed.

(** ** Tensor operations on tabulated tensors *)

Section TensorFacts.

Context {T : Type} `{Scalar T}.

Lemma tabulate_ext (r c : nat) (f g : nat -> nat -> T) :
  (forall i j, i < r -> j < c -> f i j = g i j) ->
  tabulate r c f = tabulate r c g.
Proof.
  intros Hfg. unfold tabulate. f_equal.
  apply map_ext_in. intros i Hi. apply in_seq in Hi.
  apply map_ext_in. intros j Hj. apply in_seq in Hj.
  apply Hfg; lia.
Qed.

Lemma has_shape_tabulate (r c : nat) (f : nat -> nat -> T) :
  has_shape (tabulate r c f) r c.
Proof.
  unfold has_shape, nrows, wf_tensor, tabulate. simpl.
  rewrite length_map, length_seq. repeat split.
  apply Forall_forall. intros row Hrow.
  apply in_map_iff in Hrow. destruct Hrow as (i & <- & _).
  now rewrite length_map, length_seq.
Qed.

Lemma nth_map_seq {X} (F : nat -> X) (n i : nat) (d : X) :
  i < n -> nth i (map F (seq 0 n)) d = F i.
Proof.
  intros Hi. rewrite (nth_indep _ d (F 0)) by now rewrite length_map, length_seq.
  rewrite map_nth, seq_nth by assumption. reflexivity.
Qed.

Lemma at2_tabulate (r c : nat) (f : nat -> nat -> T) (i j : nat) :
  i < r -> j < c -> at2 (tabulate r c f) i j = f i j.
Proof.
  intros Hi Hj. unfold at2, tabulate. simpl.
  rewrite (nth_map_seq (fun i => map (f i) (seq 0 c)) [] Hi).
  exact (nth_map_seq (f i) s_zero Hj).
Qed.

Lemma row_tabulate (r c : nat) (f : nat -> nat -> T) (i : nat) :
  i < r -> nth i (rows (tabulate r c f)) [] = map (f i) (seq 0 c).
Proof.
  intros Hi. unfold tabulate. simpl.
  exact (nth_map_seq (fun i => map (f i) (seq 0 c)) [] Hi).
Qed.

(** A well-shaped tensor is the table of its entries. *)
Lemma tensor_eta (t : Tensor T) (r c : nat) :
  has_shape t r c -> t = tabulate r c (at2 t).
Proof.
  destruct t as [nc rs]. unfold has_shape, nrows, wf_tensor, tabulate.
  simpl. intros (Hr & Hc & Hwf). subst. f_equal.
  rewrite (list_as_map rs []) at 1.
  apply map_ext_in. intros i Hi. apply in_seq in Hi.
  unfold at2. simpl.
  rewrite (list_as_map (nth i rs []) s_zero) at 1.
  f_equal. f_equal.
  rewrite Forall_forall in Hwf. apply Hwf. apply nth_In. lia.
Qed.

Lemma view_flat_ok (t : Tensor T) : 0 < ncols t -> view_flat t = Ok t.
Proof.
  intros Hc. unfold view_flat.
  destruct (Nat.eqb_spec (ncols t) 0); [lia | reflexivity].
Qed.

Lemma F_linear_closed (l : Linear T) (x : Tensor T) (B : nat) :
  nrows x = B -> ncols x = in_features l -> wf_linear l ->
  F_linear x (weight l) (bias l) = Ok (tabulate B (out_features l) (affine l x)).
Proof.
  intros HB Hc ((Hwr & Hwc & _) & Hb). unfold F_linear.
  rewrite Hc, Hwc, Nat.eqb_refl. unfold tabulate. f_equal.
  rewrite Hwr. f_equal.
  rewrite (map_as_map_seq _ (rows x) []). fold (nrows x). rewrite HB.
  apply map_ext. intros b.
  rewrite (zip_with_as_map _ (rows (weight l)) (bias l) [] s_zero)
    by (fold (nrows (weight l)); congruence).
  fold (nrows (weight l)). rewrite Hwr. reflexivity.
Qed.

Lemma t_binop_tabulate (f : T -> T -> T) (r c : nat) (g1 g2 : nat -> nat -> T) :
  t_binop f (tabulate r c g1) (tabulate r c g2) =
  Ok (tabulate r c (fun i j => f (g1 i j) (g2 i j))).
Proof.
  unfold t_binop.
  destruct (has_shape_tabulate r c g1) as (-> & -> & _).
  destruct (has_shape_tabulate r c g2) as (-> & -> & _).
  rewrite !broadcast_dim_same, !expand_same.
  unfold tabulate. simpl. f_equal. f_equal.
  rewrite zip_with_map. apply map_ext. intros i.
  rewrite !expand_same. apply zip_with_map.
Qed.

Lemma t_map_tabulate (f : T -> T) (r c : nat) (g : nat -> nat -> T) :
  t_map f (tabulate r c g) = tabulate r c (fun i j => f (g i j)).
Proof.
  unfold t_map, tabulate. simpl. f_equal.
  rewrite map_map. apply map_ext. intros i. now rewrite map_map.
Qed.

Lemma split_block_tabulate (r h k : nat) (g : nat -> nat -> T) :
  k < 4 ->
  mkTensor (Nat.min h (4 * h - k * h))
    (map (fun row => firstn h (skipn (k * h) row))
       (rows (tabulate r (4 * h) g)))
  = tabulate r h (fun i j => g i (k * h + j)).
Proof.
  intros Hk. unfold tabulate. simpl rows.
  replace (Nat.min h (4 * h - k * h)) with h by nia.
  f_equal. rewrite map_map. apply map_ext. intros i.
  apply block_of_map_seq. nia.
Qed.

Lemma chunk4_tabulate (r h : nat) (g : nat -> nat -> T) :
  0 < h ->
  chunk 4 (tabulate r (4 * h) g) =
  [ tabulate r h (fun i j => g i j);
    tabulate r h (fun i j => g i (h + j));
    tabulate r h (fun i j => g i (2 * h + j));
    tabulate r h (fun i j => g i (3 * h + j)) ].
Proof.
  intros Hh. unfold chunk.
  change (ncols (tabulate r (4 * h) g)) with (4 * h).
  rewrite div_ceil_4.
  destruct (Nat.eqb_spec h 0) as [-> | _]; [lia |].
  unfold split_cols.
  change (ncols (tabulate r (4 * h) g)) with (4 * h).
  rewrite div_ceil_blocks by assumption.
  cbn [seq map].
  rewrite !split_block_tabulate by lia.
  repeat (apply f_equal2; [apply tabulate_ext; intros; f_equal; lia |]).
  reflexivity.
Qed.

End TensorFacts.

(** ** One cell step in closed form *)

Section CellSteps.

Context {T : Type} `{Scalar T}.

Lemma bind_lift_Ok {St A B} (r : Result A) (a : A) (k : A -> M St B) (s : St) :
  r = Ok a -> bind (lift r) k s = k a s.
Proof. intros ->. reflexivity. Qed.

Lemma bind_lift_Raise {St A B} (r : Result A) (e : PyExn) (k : A -> M St B)
    (s : St) :
  r = Raise e -> bind (lift r) k s = (Raise e, s).
Proof. intros ->. reflexivity. Qed.

Lemma bind_call_Linear {St B} (field : St -> Linear T)
    (set_field : Linear T -> St -> St) (x y : Tensor T)
    (k : Tensor T -> M St B) (s : St) :
  (forall s, set_field (field s) s = s) ->
  F_linear x (weight (field s)) (bias (field s)) = Ok y ->
  bind (call field set_field (Linear_forward (Some x))) k s = k y s.
Proof.
  intros Hlens Hy. unfold bind.
  rewrite run_call_read_only by
    (assumption || apply Linear_forward_read_only).
  now rewrite Linear_forward_value, Hy.
Qed.

Lemma bind_call_Linear_Raise {St B} (field : St -> Linear T)
    (set_field : Linear T -> St -> St) (x : Tensor T) (e : PyExn)
    (k : Tensor T -> M St B) (s : St) :
  (forall s, set_field (field s) s = s) ->
  F_linear x (weight (field s)) (bias (field s)) = Raise e ->
  bind (call field set_field (Linear_forward (Some x))) k s = (Raise e, s).
Proof.
  intros Hlens Hy. unfold bind.
  rewrite run_call_read_only by
    (assumption || apply Linear_forward_read_only).
  now rewrite Linear_forward_value, Hy.
Qed.


Lemma t_binop_tabulate_r (f : T -> T -> T) (r c : nat)
    (g : nat -> nat -> T) (b : Tensor T) :
  has_shape b r c ->
  t_binop f (tabulate r c g) b =
  Ok (tabulate r c (fun i j => f (g i j) (at2 b i j))).
Proof.
  intros Hb. set (gb := at2 b). rewrite (tensor_eta Hb). subst gb.
  apply t_binop_tabulate.
Qed.

Ltac lens := let s := fresh "s" in intros s; destruct s; reflexivity.

Lemma LSTMCell_forward_closed (self : LSTMCell T) (x_t h_t_1 c_t_1 : Tensor T)
    (B : nat) :
  wf_LSTMCell self ->
  0 < lstm_input_size self -> 0 < lstm_hidden_size self ->
  has_shape x_t B (lstm_input_size self) ->
  has_shape h_t_1 B (lstm_hidden_size self) ->
  has_shape c_t_1 B (lstm_hidden_size self) ->
  LSTMCell_forward x_t (Some h_t_1, Some c_t_1) self =
  (Ok (tabulate B (lstm_hidden_size self) (lstm_h self x_t h_t_1 c_t_1),
       tabulate B (lstm_hidden_size self) (lstm_c self x_t h_t_1 c_t_1)),
   self).
Proof.
  intros (Hwx & Hwh & Hxi & Hxo & Hhi & Hho) HI HH
         (Hxr & Hxc & Hxw) (Hhr & Hhc & Hhw) Hc.
  unfold LSTMCell_forward.
  erewrite bind_lift_Ok by (apply view_flat_ok; lia).
  erewrite bind_lift_Ok by (apply (view_flat_ok h_t_1); lia).
  erewrite bind_lift_Ok
    by (apply (view_flat_ok c_t_1); destruct Hc as (_ & -> & _); lia).
  erewrite bind_call_Linear;
    [| lens | apply F_linear_closed; [exact Hxr | lia | assumption]].
  erewrite bind_call_Linear;
    [| lens | apply F_linear_closed; [exact Hhr | lia | assumption]].
  rewrite Hxo, Hho.
  erewrite bind_lift_Ok by apply t_binop_tabulate.
  erewrite bind_lift_Ok by (rewrite chunk4_tabulate by assumption; reflexivity).
  cbv zeta. unfold t_sigmoid, t_tanh. rewrite !t_map_tabulate.
  erewrite bind_lift_Ok by (apply t_binop_tabulate_r; eassumption).
  erewrite bind_lift_Ok by apply t_binop_tabulate.
  erewrite bind_lift_Ok by apply t_binop_tabulate.
  rewrite !t_map_tabulate.
  erewrite bind_lift_Ok by apply t_binop_tabulate.
  reflexivity.
Qed.

Lemma GRUCell_forward_closed (self : GRUCell T) (x_t h_t_1 : Tensor T)
    (B : nat) :
  wf_GRUCell self ->
  has_shape x_t B (gru_input_size self) ->
  has_shape h_t_1 B (gru_hidden_size self) ->
  GRUCell_forward x_t (Some h_t_1) self =
  (Ok (tabulate B (gru_hidden_size self) (gru_h self x_t h_t_1)), self).
Proof.
  intros (Wxr & Wxz & Wxh & Whr & Whz & Whh &
          Ixr & Ixz & Ixh & Ihr & Ihz & Ihh &
          Oxr & Oxz & Oxh & Ohr & Ohz & Ohh)
         (Hxr & Hxc & Hxw) (Hhr & Hhc & Hhw).
  rewrite <- Hhr in Hxr |- *. clear Hhr B.
  assert (Hh : has_shape h_t_1 (nrows h_t_1) (gru_hidden_size self))
    by (repeat split; assumption).
  unfold GRUCell_forward, gru_h, gru_candidate, gru_rh, gru_z, gru_r.
  (* update gate *)
  erewrite bind_call_Linear;
    [| lens | apply F_linear_closed; [exact Hxr | lia | assumption]].
  erewrite bind_call_Linear;
    [| lens | apply F_linear_closed; [reflexivity | lia | assumption]].
  rewrite Oxz, Ohz.
  erewrite bind_lift_Ok by apply t_binop_tabulate.
  (* reset gate *)
  erewrite bind_call_Linear;
    [| lens | apply F_linear_closed; [exact Hxr | lia | assumption]].
  erewrite bind_call_Linear;
    [| lens | apply F_linear_closed; [reflexivity | lia | assumption]].
  rewrite Oxr, Ohr.
  erewrite bind_lift_Ok by apply t_binop_tabulate.
  (* candidate *)
  erewrite bind_call_Linear;
    [| lens | apply F_linear_closed; [exact Hxr | lia | assumption]].
  cbv zeta. unfold t_sigmoid, t_tanh, t_one_minus. rewrite !t_map_tabulate.
  erewrite bind_lift_Ok by (apply t_binop_tabulate_r; exact Hh).
  erewrite bind_call_Linear;
    [| lens
     | apply F_linear_closed;
       [apply has_shape_tabulate | simpl; lia | assumption]].
  rewrite Oxh, Ohh.
  erewrite bind_lift_Ok by apply t_binop_tabulate.
  (* new state *)
  erewrite bind_lift_Ok by (apply t_binop_tabulate_r; exact Hh).
  rewrite !t_map_tabulate.
  erewrite bind_lift_Ok by apply t_binop_tabulate.
  erewrite bind_lift_Ok by apply t_binop_tabulate.
  reflexivity.
Qed.

(** C1. One [LSTMCell.forward] step on a batch [x_t] (B x input_size) with
    previous state [h_{t-1}], [c_{t-1}] (each B x hidden_size) succeeds and
    returns [(h_t, c_t)], both B x hidden_size, where
    gates = x_t @ Wx.T + bx + (h_{t-1} @ Wh.T + bh) is cut into the four
    consecutive blocks i, f, g, o of hidden_size columns,
    i, f, o go through sigmoid and g through tanh,
    c_t = f * c_{t-1} + i * g and h_t = o * tanh(c_t), entry by entry. *)
Theorem C1_LSTMCell_forward_equations
    (self : LSTMCell T) (x_t h_t_1 c_t_1 : Tensor T) (B : nat) :
  wf_LSTMCell self ->
  0 < lstm_input_size self -> 0 < lstm_hidden_size self ->
  has_shape x_t B (lstm_input_size self) ->
  has_shape h_t_1 B (lstm_hidden_size self) ->
  has_shape c_t_1 B (lstm_hidden_size self) ->
  let Hd := lstm_hidden_size self in
  let gates b k :=
    s_add (affine (x_fc self) x_t b k) (affine (h_fc self) h_t_1 b k) in
  let i b j := s_sigmoid (gates b j) in
  let f b j := s_sigmoid (gates b (Hd + j)) in
  let g b j := s_tanh (gates b (2 * Hd + j)) in
  let o b j := s_sigmoid (gates b (3 * Hd + j)) in
  exists h_t c_t,
    LSTMCell_forward x_t (Some h_t_1, Some c_t_1) self = (Ok (h_t, c_t), self) /\
    has_shape h_t B Hd /\ has_shape c_t B Hd /\
    forall b j, b < B -> j < Hd ->
      at2 c_t b j =
        s_add (s_mul (f b j) (at2 c_t_1 b j)) (s_mul (i b j) (g b j)) /\
      at2 h_t b j = s_mul (o b j) (s_tanh (at2 c_t b j)).
Proof.
  intros Hwf HI HH Hx Hh Hc Hd gates i f g o.
  exists (tabulate B Hd (lstm_h self x_t h_t_1 c_t_1)),
         (tabulate B Hd (lstm_c self x_t h_t_1 c_t_1)).
  split; [now apply LSTMCell_forward_closed |].
  split; [apply has_shape_tabulate |].
  split; [apply has_shape_tabulate |].
  intros b j Hb Hj. rewrite !at2_tabulate by assumption.
  split; reflexivity.
Qed.

(** C2. One [GRUCell.forward] step on a batch [x_t] (B x input_size) with
    previous hidden state [h_{t-1}] (B x hidden_size) succeeds and returns a
    single tensor [h_t] (B x hidden_size) with
    z = sigmoid(Wxz x + Whz h), r = sigmoid(Wxr x + Whr h),
    candidate = tanh(Wxh x + Whh (r * h)) and
    h_t = z * h_{t-1} + (1 - z) * candidate, entry by entry. *)
Theorem C2_GRUCell_forward_equations
    (self : GRUCell T) (x_t h_t_1 : Tensor T) (B : nat) :
  wf_GRUCell self ->
  has_shape x_t B (gru_input_size self) ->
  has_shape h_t_1 B (gru_hidden_size self) ->
  let Hd := gru_hidden_size self in
  let z b j :=
    s_sigmoid (s_add (affine (x_z_fc self) x_t b j)
                     (affine (h_z_fc self) h_t_1 b j)) in
  let r b j :=
    s_sigmoid (s_add (affine (x_r_fc self) x_t b j)
                     (affine (h_r_fc self) h_t_1 b j)) in
  let rh := tabulate B Hd (fun b j => s_mul (r b j) (at2 h_t_1 b j)) in
  let candidate b j :=
    s_tanh (s_add (affine (x_h_fc self) x_t b j)
                  (affine (hr_h_fc self) rh b j)) in
  exists h_t,
    GRUCell_forward x_t (Some h_t_1) self = (Ok h_t, self) /\
    has_shape h_t B Hd /\
    forall b j, b < B -> j < Hd ->
      at2 h_t b j =
        s_add (s_mul (z b j) (at2 h_t_1 b j))
              (s_mul (s_sub s_one (z b j)) (candidate b j)).
Proof.
  intros Hwf Hx Hh Hd z r rh candidate.
  exists (tabulate B Hd (gru_h self x_t h_t_1)).
  split; [now apply GRUCell_forward_closed |].
  split; [apply has_shape_tabulate |].
  intros b j Hb Hj. rewrite at2_tabulate by assumption.
  destruct Hh as (Hr & _). subst rh B. reflexivity.
Qed.

End CellSteps.

(** ** Batch rows are processed independently *)

Section BatchRows.

Context {T : Type} `{Scalar T}.

Lemma has_shape_vstack (a b : Tensor T) (r1 r2 c : nat) :
  has_shape a r1 c -> has_shape b r2 c -> has_shape (vstack a b) (r1 + r2) c.
Proof.
  intros (Ha & Hac & Haw) (Hb & Hbc & Hbw).
  unfold has_shape, nrows, wf_tensor, vstack in *. simpl.
  rewrite length_app. repeat split; [lia | assumption |].
  apply Forall_app. split; [assumption |]. now rewrite Hac, <- Hbc.
Qed.

Lemma tabulate_vstack (r1 r2 c : nat) (f f1 f2 : nat -> nat -> T) :
  (forall i j, i < r1 -> j < c -> f i j = f1 i j) ->
  (forall i j, i < r2 -> j < c -> f (r1 + i) j = f2 i j) ->
  tabulate (r1 + r2) c f = vstack (tabulate r1 c f1) (tabulate r2 c f2).
Proof.
  intros H1 H2. unfold vstack, tabulate. simpl. f_equal.
  rewrite seq_app, map_app. f_equal.
  - apply map_ext_in. intros i Hi. apply in_seq in Hi.
    apply map_ext_in. intros j Hj. apply in_seq in Hj. apply H1; lia.
  - simpl. rewrite (seq_as_map r1 r2), map_map.
    apply map_ext_in. intros i Hi. apply in_seq in Hi.
    apply map_ext_in. intros j Hj. apply in_seq in Hj. apply H2; lia.
Qed.

Lemma zeros_vstack (r1 r2 c : nat) :
  zeros (r1 + r2) c = vstack (zeros r1 c) (zeros r2 c) :> Tensor T.
Proof. unfold zeros, vstack. simpl. now rewrite repeat_app. Qed.

Lemma has_shape_zeros (r c : nat) : has_shape (zeros r c : Tensor T) r c.
Proof.
  unfold has_shape, nrows, wf_tensor, zeros. simpl.
  rewrite repeat_length. repeat split.
  apply Forall_forall. intros row Hrow. apply repeat_spec in Hrow. subst.
  apply repeat_length.
Qed.

Lemma affine_vstack_l (l : Linear T) (x1 x2 : Tensor T) (b k : nat) :
  b < nrows x1 -> affine l (vstack x1 x2) b k = affine l x1 b k.
Proof.
  intros Hb. unfold affine, vstack. simpl. now rewrite app_nth1.
Qed.

Lemma affine_vstack_r (l : Linear T) (x1 x2 : Tensor T) (n b k : nat) :
  nrows x1 = n -> affine l (vstack x1 x2) (n + b) k = affine l x2 b k.
Proof.
  intros <-. unfold affine, vstack, nrows. simpl. now rewrite app_nth2_plus.
Qed.

Lemma at2_vstack_l (x1 x2 : Tensor T) (b j : nat) :
  b < nrows x1 -> at2 (vstack x1 x2) b j = at2 x1 b j.
Proof. intros Hb. unfold at2, vstack. simpl. now rewrite app_nth1. Qed.

Lemma at2_vstack_r (x1 x2 : Tensor T) (n b j : nat) :
  nrows x1 = n -> at2 (vstack x1 x2) (n + b) j = at2 x2 b j.
Proof.
  intros <-. unfold at2, vstack, nrows. simpl. now rewrite app_nth2_plus.
Qed.

Lemma affine_tabulate_ext (l : Linear T) (r r' c : nat)
    (f g : nat -> nat -> T) (b b' k : nat) :
  b < r -> b' < r' -> (forall j, j < c -> f b j = g b' j) ->
  affine l (tabulate r c f) b k = affine l (tabulate r' c g) b' k.
Proof.
  intros Hb Hb' Hfg. unfold affine. rewrite !row_tabulate by assumption.
  do 2 f_equal. apply map_ext_in. intros j Hj. apply in_seq in Hj.
  apply Hfg. lia.
Qed.

Lemma F_linear_vstack (a b ya yb W : Tensor T) (bs : list T) :
  ncols a = ncols b ->
  F_linear a W bs = Ok ya -> F_linear b W bs = Ok yb ->
  F_linear (vstack a b) W bs = Ok (vstack ya yb).
Proof.
  unfold F_linear, vstack. simpl. intros <-.
  destruct (ncols a =? ncols W); [| discriminate].
  intros [= <-] [= <-]. simpl. now rewrite map_app.
Qed.

(** *** LSTM *)

Lemma LSTMCell_forward_vstack (self : LSTMCell T)
    (x1 h1 c1 x2 h2 c2 : Tensor T) (B1 B2 : nat) :
  wf_LSTMCell self ->
  0 < lstm_input_size self -> 0 < lstm_hidden_size self ->
  has_shape x1 B1 (lstm_input_size self) ->
  has_shape h1 B1 (lstm_hidden_size self) ->
  has_shape c1 B1 (lstm_hidden_size self) ->
  has_shape x2 B2 (lstm_input_size self) ->
  has_shape h2 B2 (lstm_hidden_size self) ->
  has_shape c2 B2 (lstm_hidden_size self) ->
  exists h1' c1' h2' c2',
    fst (LSTMCell_forward x1 (Some h1, Some c1) self) = Ok (h1', c1') /\
    fst (LSTMCell_forward x2 (Some h2, Some c2) self) = Ok (h2', c2') /\
    fst (LSTMCell_forward (vstack x1 x2)
           (Some (vstack h1 h2), Some (vstack c1 c2)) self)
    = Ok (vstack h1' h2', vstack c1' c2') /\
    has_shape h1' B1 (lstm_hidden_size self) /\
    has_shape c1' B1 (lstm_hidden_size self) /\
    has_shape h2' B2 (lstm_hidden_size self) /\
    has_shape c2' B2 (lstm_hidden_size self).
Proof.
  intros Hwf HI HH Hx1 Hh1 Hc1 Hx2 Hh2 Hc2.
  do 4 eexists.
  rewrite (LSTMCell_forward_closed Hwf HI HH Hx1 Hh1 Hc1).
  rewrite (LSTMCell_forward_closed Hwf HI HH Hx2 Hh2 Hc2).
  rewrite (LSTMCell_forward_closed Hwf HI HH
             (has_shape_vstack Hx1 Hx2) (has_shape_vstack Hh1 Hh2)
             (has_shape_vstack Hc1 Hc2)).
  simpl fst.
  split; [reflexivity |]. split; [reflexivity |].
  destruct Hx1 as (Hx1 & _), Hh1 as (Hh1 & _), Hc1 as (Hc1 & _).
  split; [| repeat split; apply has_shape_tabulate].
  f_equal. f_equal.
  - apply tabulate_vstack; intros b j Hb Hj;
      unfold lstm_h, lstm_c, lstm_o, lstm_f, lstm_i, lstm_g, lstm_gates.
    + rewrite !affine_vstack_l, !at2_vstack_l by lia. reflexivity.
    + rewrite !affine_vstack_r, !at2_vstack_r by assumption. reflexivity.
  - apply tabulate_vstack; intros b j Hb Hj;
      unfold lstm_c, lstm_f, lstm_i, lstm_g, lstm_gates.
    + rewrite !affine_vstack_l, !at2_vstack_l by lia. reflexivity.
    + rewrite !affine_vstack_r, !at2_vstack_r by assumption. reflexivity.
Qed.

Lemma slice_app (Tm W : nat) (xs ys : list (list (list T))) (k : nat) :
  slice (batch_of Tm W (xs ++ ys)) k =
  vstack (slice (batch_of Tm W xs) k) (slice (batch_of Tm W ys) k).
Proof. unfold slice, vstack, batch_of. simpl. now rewrite map_app. Qed.

Lemma has_shape_slice (Tm W : nat) (xs : list (list (list T))) (k : nat) :
  Forall (wf_sequence Tm W) xs -> k < Tm ->
  has_shape (slice (batch_of Tm W xs) k) (length xs) W.
Proof.
  intros Hxs Hk. unfold has_shape, nrows, wf_tensor, slice, batch_of. simpl.
  rewrite length_map. repeat split.
  apply Forall_map. eapply Forall_impl; [| exact Hxs].
  intros s (Hlen & Hvs). rewrite Forall_forall in Hvs.
  apply Hvs, nth_In. lia.
Qed.

Lemma lstm_state_after_app (m : LSTMModel T) (Tm : nat)
    (xs ys : list (list (list T))) (k : nat) :
  wf_LSTMModel m ->
  0 < lstm_input_size (lstm m) -> 0 < lstm_hidden_size (lstm m) ->
  Forall (wf_sequence Tm (lstm_input_size (lstm m))) xs ->
  Forall (wf_sequence Tm (lstm_input_size (lstm m))) ys ->
  k <= Tm ->
  exists h1 c1 h2 c2,
    lstm_state_after m (batch_of Tm (lstm_input_size (lstm m)) xs) k = Ok (h1, c1) /\
    lstm_state_after m (batch_of Tm (lstm_input_size (lstm m)) ys) k = Ok (h2, c2) /\
    lstm_state_after m
      (batch_of Tm (lstm_input_size (lstm m)) (xs ++ ys)) k
    = Ok (vstack h1 h2, vstack c1 c2) /\
    has_shape h1 (length xs) (lstm_hidden_size (lstm m)) /\ has_shape c1 (length xs) (lstm_hidden_size (lstm m)) /\
    has_shape h2 (length ys) (lstm_hidden_size (lstm m)) /\ has_shape c2 (length ys) (lstm_hidden_size (lstm m)).
Proof.
  intros (Hcell & Hfc & Hhid & Hfci) HI HH Hxs Hys Hk.
  set (I := lstm_input_size (lstm m)) in *.
  set (Hd := lstm_hidden_size (lstm m)) in *.
  induction k as [| k IH].
  - cbn [lstm_state_after]. unfold size0, batch_of. simpl items.
    rewrite <- Hhid. fold Hd. rewrite length_app, zeros_vstack.
    do 4 eexists. repeat split; apply has_shape_zeros.
  - destruct IH as (h1 & c1 & h2 & c2 & E1 & E2 & E12 & S1 & S2 & S3 & S4);
      [lia |].
    cbn [lstm_state_after]. rewrite E1, E2, E12, slice_app.
    destruct (LSTMCell_forward_vstack (self := lstm m)
                (x1 := slice (batch_of Tm I xs) k)
                (x2 := slice (batch_of Tm I ys) k)
                (h1 := h1) (c1 := c1) (h2 := h2) (c2 := c2)
                (B1 := length xs) (B2 := length ys))
      as (h1' & c1' & h2' & c2' & F1 & F2 & F12 & R);
      try assumption; try (apply has_shape_slice; [assumption | lia]).
    exists h1', c1', h2', c2'. repeat split; try assumption; apply R.
Qed.

(** *** GRU *)

Lemma gru_h_vstack_l (self : GRUCell T) (x1 h1 x2 h2 : Tensor T) (b j : nat) :
  nrows h1 = nrows x1 -> b < nrows x1 ->
  gru_h self (vstack x1 x2) (vstack h1 h2) b j = gru_h self x1 h1 b j.
Proof.
  intros Hh Hb. unfold gru_h, gru_candidate, gru_z.
  rewrite !affine_vstack_l, !at2_vstack_l by lia.
  do 4 f_equal. unfold gru_rh.
  apply affine_tabulate_ext;
    [unfold nrows, vstack; simpl; rewrite length_app; fold (nrows h1); lia
    | lia |].
  intros j' Hj'. unfold gru_r.
  rewrite !affine_vstack_l, !at2_vstack_l by lia. reflexivity.
Qed.

Lemma gru_h_vstack_r (self : GRUCell T) (x1 h1 x2 h2 : Tensor T)
    (n b j : nat) :
  nrows x1 = n -> nrows h1 = n -> b < nrows h2 ->
  gru_h self (vstack x1 x2) (vstack h1 h2) (n + b) j = gru_h self x2 h2 b j.
Proof.
  intros Hx Hh Hb. unfold gru_h, gru_candidate, gru_z.
  rewrite !affine_vstack_r, !at2_vstack_r by assumption.
  do 4 f_equal. unfold gru_rh.
  apply affine_tabulate_ext;
    [unfold nrows, vstack; simpl; rewrite length_app;
     fold (nrows h1) (nrows h2); lia
    | lia |].
  intros j' Hj'. unfold gru_r.
  rewrite !affine_vstack_r, !at2_vstack_r by assumption. reflexivity.
Qed.

Lemma GRUCell_forward_vstack (self : GRUCell T)
    (x1 h1 x2 h2 : Tensor T) (B1 B2 : nat) :
  wf_GRUCell self ->
  has_shape x1 B1 (gru_input_size self) ->
  has_shape h1 B1 (gru_hidden_size self) ->
  has_shape x2 B2 (gru_input_size self) ->
  has_shape h2 B2 (gru_hidden_size self) ->
  exists h1' h2',
    fst (GRUCell_forward x1 (Some h1) self) = Ok h1' /\
    fst (GRUCell_forward x2 (Some h2) self) = Ok h2' /\
    fst (GRUCell_forward (vstack x1 x2) (Some (vstack h1 h2)) self)
    = Ok (vstack h1' h2') /\
    has_shape h1' B1 (gru_hidden_size self) /\
    has_shape h2' B2 (gru_hidden_size self).
Proof.
  intros Hwf Hx1 Hh1 Hx2 Hh2.
  do 2 eexists.
  rewrite (GRUCell_forward_closed Hwf Hx1 Hh1).
  rewrite (GRUCell_forward_closed Hwf Hx2 Hh2).
  rewrite (GRUCell_forward_closed Hwf
             (has_shape_vstack Hx1 Hx2) (has_shape_vstack Hh1 Hh2)).
  simpl fst.
  split; [reflexivity |]. split; [reflexivity |].
  destruct Hx1 as (Hx1 & _), Hh1 as (Hh1 & _), Hh2 as (Hh2 & _).
  split; [| split; apply has_shape_tabulate].
  f_equal.
  apply tabulate_vstack; intros b j Hb Hj.
  - apply gru_h_vstack_l; lia.
  - apply gru_h_vstack_r; (assumption || lia).
Qed.

Lemma gru_state_after_app (m : GRUModel T) (Tm : nat)
    (xs ys : list (list (list T))) (k : nat) :
  wf_GRUModel m ->
  Forall (wf_sequence Tm (gru_input_size (gru m))) xs ->
  Forall (wf_sequence Tm (gru_input_size (gru m))) ys ->
  k <= Tm ->
  exists h1 h2,
    gru_state_after m (batch_of Tm (gru_input_size (gru m)) xs) k = Ok h1 /\
    gru_state_after m (batch_of Tm (gru_input_size (gru m)) ys) k = Ok h2 /\
    gru_state_after m (batch_of Tm (gru_input_size (gru m)) (xs ++ ys)) k
    = Ok (vstack h1 h2) /\
    has_shape h1 (length xs) (gru_hidden_size (gru m)) /\ has_shape h2 (length ys) (gru_hidden_size (gru m)).
Proof.
  intros (Hcell & Hfc & Hhid & Hfci) Hxs Hys Hk.
  set (I := gru_input_size (gru m)) in *.
  set (Hd := gru_hidden_size (gru m)) in *.
  induction k as [| k IH].
  - cbn [gru_state_after]. unfold size0, batch_of. simpl items.
    rewrite <- Hhid. fold Hd. rewrite length_app, zeros_vstack.
    do 2 eexists. repeat split; apply has_shape_zeros.
  - destruct IH as (h1 & h2 & E1 & E2 & E12 & S1 & S2); [lia |].
    cbn [gru_state_after]. rewrite E1, E2, E12, slice_app.
    destruct (GRUCell_forward_vstack (self := gru m)
                (x1 := slice (batch_of Tm I xs) k)
                (x2 := slice (batch_of Tm I ys) k)
                (h1 := h1) (h2 := h2)
                (B1 := length xs) (B2 := length ys))
      as (h1' & h2' & F1 & F2 & F12 & R);
      try assumption; try (apply has_shape_slice; [assumption | lia]).
    exists h1', h2'. repeat split; try assumption; apply R.
Qed.

(** *** Whole passes on well-shaped batches *)

Lemma lstm_state_after_Ok (m : LSTMModel T) (x : Tensor3 T) (k : nat) :
  wf_LSTMModel m -> wf_tensor3 x ->
  size2 x = lstm_input_size (lstm m) ->
  0 < size2 x -> 0 < lstmm_hidden_size m ->
  k <= size1 x ->
  exists h c,
    lstm_state_after m x k = Ok (h, c) /\
    has_shape h (size0 x) (lstmm_hidden_size m) /\
    has_shape c (size0 x) (lstmm_hidden_size m).
Proof.
  intros Hm Hx HI Hpos HH Hk.
  pose proof Hm as (_ & _ & Hhid & _).
  destruct x as [Tm W its]. simpl in *. subst W. rewrite <- Hhid in *.
  destruct (lstm_state_after_app (ys := []) Hm Hpos HH Hx (Forall_nil _) Hk)
    as (h & c & _ & _ & E & _ & _ & Sh & Sc & _).
  exists h, c. repeat split; (exact E || apply Sh || apply Sc).
Qed.

Lemma gru_state_after_Ok (m : GRUModel T) (x : Tensor3 T) (k : nat) :
  wf_GRUModel m -> wf_tensor3 x ->
  size2 x = gru_input_size (gru m) ->
  k <= size1 x ->
  exists h,
    gru_state_after m x k = Ok h /\
    has_shape h (size0 x) (grum_hidden_size m).
Proof.
  intros Hm Hx HI Hk.
  pose proof Hm as (_ & _ & Hhid & _).
  destruct x as [Tm W its]. simpl in *. subst W. rewrite <- Hhid in *.
  destruct (gru_state_after_app (ys := []) Hm Hx (Forall_nil _) Hk)
    as (h & _ & E & _ & _ & Sh & _).
  exists h. repeat split; (exact E || apply Sh).
Qed.

(** C4. On a well-shaped batch the sequence models start from all-zero
    carried state ([h], and [c] for the LSTM), run the cell once for each
    time index 0, 1, ..., T-1 in that order, each call receiving the state
    returned by the previous one, and succeed; the result is the output
    layer applied to the final hidden state alone,
    [out[b, k] = h_T[b] . W[k] + bias[k]], with no activation. *)
Theorem C4_sequence_reduction
    (lm : LSTMModel T) (gm : GRUModel T) (x : Tensor3 T) :
  wf_LSTMModel lm -> wf_GRUModel gm -> wf_tensor3 x ->
  size2 x = lstm_input_size (lstm lm) ->
  size2 x = gru_input_size (gru gm) ->
  0 < size2 x -> 0 < lstmm_hidden_size lm ->
  (lstm_state_after lm x 0 =
     Ok (zeros (size0 x) (lstmm_hidden_size lm),
         zeros (size0 x) (lstmm_hidden_size lm)) /\
   (forall k,
      lstm_state_after lm x (S k) =
      match lstm_state_after lm x k with
      | Ok (h, c) =>
          fst (LSTMCell_forward (slice x k) (Some h, Some c) (lstm lm))
      | Raise e => Raise e
      end) /\
   exists h_T c_T,
     lstm_state_after lm x (size1 x) = Ok (h_T, c_T) /\
     has_shape h_T (size0 x) (lstmm_hidden_size lm) /\
     LSTMModel_forward x lm =
     (Ok (tabulate (size0 x) (out_features (lstm_fc lm))
            (affine (lstm_fc lm) h_T)), lm)) /\
  (gru_state_after gm x 0 = Ok (zeros (size0 x) (grum_hidden_size gm)) /\
   (forall k,
      gru_state_after gm x (S k) =
      match gru_state_after gm x k with
      | Ok h => fst (GRUCell_forward (slice x k) (Some h) (gru gm))
      | Raise e => Raise e
      end) /\
   exists h_T,
     gru_state_after gm x (size1 x) = Ok h_T /\
     has_shape h_T (size0 x) (grum_hidden_size gm) /\
     GRUModel_forward x gm =
     (Ok (tabulate (size0 x) (out_features (gru_fc gm))
            (affine (gru_fc gm) h_T)), gm)).
Proof.
  intros Hlm Hgm Hx HIl HIg Hpos HH. split.
  - split; [reflexivity | split; [intros k; reflexivity |]].
    destruct (lstm_state_after_Ok Hlm Hx HIl Hpos HH (le_n _))
      as (h & c & E & Sh & _).
    exists h, c. split; [exact E | split; [exact Sh |]].
    rewrite LSTMModel_forward_run, E.
    destruct Hlm as (_ & Hfc & _ & Hfci). destruct Sh as (Hr & Hc & _).
    now rewrite (F_linear_closed (l := lstm_fc lm) h Hr) by congruence.
  - split; [reflexivity | split; [intros k; reflexivity |]].
    destruct (gru_state_after_Ok Hgm Hx HIg (le_n _)) as (h & E & Sh).
    exists h. split; [exact E | split; [exact Sh |]].
    rewrite GRUModel_forward_run, E.
    destruct Hgm as (_ & Hfc & _ & Hfci). destruct Sh as (Hr & Hc & _).
    now rewrite (F_linear_closed (l := gru_fc gm) h Hr) by congruence.
Qed.

End BatchRows.

(** ** Failing calls *)

Section Failures.

Context {T : Type} `{Scalar T}.

Ltac lens := let s := fresh "s" in intros s; destruct s; reflexivity.

Lemma F_linear_bad_width (x W : Tensor T) (b : list T) :
  ncols x <> ncols W -> F_linear x W b = Raise RuntimeError.
Proof.
  intros Hne. unfold F_linear.
  destruct (Nat.eqb_spec (ncols x) (ncols W)); [contradiction | reflexivity].
Qed.


Lemma view_flat_cases (t : Tensor T) :
  view_flat t = Ok t \/ view_flat t = Raise RuntimeError.
Proof. unfold view_flat. destruct (ncols t =? 0); auto. Qed.

(** A cell given previous state rejects an input of the wrong width. *)
Lemma LSTMCell_forward_bad_width (self : LSTMCell T) (x_t h c : Tensor T) :
  ncols x_t <> ncols (weight (x_fc self)) ->
  LSTMCell_forward x_t (Some h, Some c) self = (Raise RuntimeError, self).
Proof.
  intros Hne. unfold LSTMCell_forward.
  destruct (view_flat_cases x_t) as [E | E];
    [erewrite bind_lift_Ok by exact E | now erewrite bind_lift_Raise by exact E].
  destruct (view_flat_cases h) as [Eh | Eh];
    [erewrite bind_lift_Ok by exact Eh
    | now erewrite bind_lift_Raise by exact Eh].
  destruct (view_flat_cases c) as [Ec | Ec];
    [erewrite bind_lift_Ok by exact Ec
    | now erewrite bind_lift_Raise by exact Ec].
  apply bind_call_Linear_Raise; [lens | now apply F_linear_bad_width].
Qed.

Lemma GRUCell_forward_bad_width (self : GRUCell T) (x_t : Tensor T) h :
  ncols x_t <> ncols (weight (x_z_fc self)) ->
  GRUCell_forward x_t h self = (Raise RuntimeError, self).
Proof.
  intros Hne. unfold GRUCell_forward.
  apply bind_call_Linear_Raise; [lens | now apply F_linear_bad_width].
Qed.

Lemma lstm_state_after_bad_width (m : LSTMModel T) (x : Tensor3 T) (k : nat) :
  size2 x <> ncols (weight (x_fc (lstm m))) ->
  lstm_state_after m x (S k) = Raise RuntimeError.
Proof.
  intros Hne. induction k as [| k IH].
  - cbn [lstm_state_after].
    now rewrite LSTMCell_forward_bad_width.
  - change (lstm_state_after m x (S (S k))) with
      (match lstm_state_after m x (S k) with
       | Ok (h, c) =>
           fst (LSTMCell_forward (slice x (S k)) (Some h, Some c) (lstm m))
       | Raise e => Raise e
       end).
    now rewrite IH.
Qed.

Lemma gru_state_after_bad_width (m : GRUModel T) (x : Tensor3 T) (k : nat) :
  size2 x <> ncols (weight (x_z_fc (gru m))) ->
  gru_state_after m x (S k) = Raise RuntimeError.
Proof.
  intros Hne. induction k as [| k IH].
  - cbn [gru_state_after].
    now rewrite GRUCell_forward_bad_width.
  - change (gru_state_after m x (S (S k))) with
      (match gru_state_after m x (S k) with
       | Ok h => fst (GRUCell_forward (slice x (S k)) (Some h) (gru m))
       | Raise e => Raise e
       end).
    now rewrite IH.
Qed.

Lemma wf_linear_weight_width (l : Linear T) :
  wf_linear l -> ncols (weight l) = in_features l.
Proof. intros ((_ & Hc & _) & _). exact Hc. Qed.

(** C8 (as the code behaves).  When the input has at least one time step
    and its width differs from the configured input_size, the model's
    forward raises torch's shape error (a RuntimeError) and the model is left
    exactly as it was; the same holds for a single cell step that is given a
    previous state. *)
Theorem C8_wrong_width_raises
    (lm : LSTMModel T) (gm : GRUModel T) (x : Tensor3 T)
    (x_t h c : Tensor T) :
  wf_LSTMModel lm -> wf_GRUModel gm ->
  0 < size1 x ->
  size2 x <> lstm_input_size (lstm lm) ->
  size2 x <> gru_input_size (gru gm) ->
  ncols x_t <> lstm_input_size (lstm lm) ->
  ncols x_t <> gru_input_size (gru gm) ->
  LSTMModel_forward x lm = (Raise RuntimeError, lm) /\
  GRUModel_forward x gm = (Raise RuntimeError, gm) /\
  LSTMCell_forward x_t (Some h, Some c) (lstm lm)
  = (Raise RuntimeError, lstm lm) /\
  GRUCell_forward x_t (Some h) (gru gm) = (Raise RuntimeError, gru gm).
Proof.
  intros ((Hx & _ & Hxi & _) & _) (Hgc & _) HT Hl Hg Hlc Hgc'.
  assert (Hzi : ncols (weight (x_z_fc (gru gm))) = gru_input_size (gru gm)).
  { destruct Hgc as (_ & Wxz & _ & _ & _ & _ & _ & Ixz & _).
    now rewrite (wf_linear_weight_width Wxz). }
  apply wf_linear_weight_width in Hx. rewrite Hxi in Hx.
  destruct (size1 x) as [| n] eqn:ET; [lia |].
  repeat split.
  - rewrite LSTMModel_forward_run, ET.
    now rewrite lstm_state_after_bad_width by congruence.
  - rewrite GRUModel_forward_run, ET.
    now rewrite gru_state_after_bad_width by congruence.
  - apply LSTMCell_forward_bad_width. congruence.
  - apply GRUCell_forward_bad_width. congruence.
Qed.

(** *** Calls without previous state *)






End Failures.

(** ** Instances of the statements above on concrete models *)

Section Instances.

Import Examples.

Local Ltac shapes := repeat split; repeat constructor.

Lemma C1_witness :
  (wf_LSTMCell lstm_cell /\
   0 < lstm_input_size lstm_cell /\ 0 < lstm_hidden_size lstm_cell /\
   has_shape x_t 2 1 /\ has_shape state 2 2) /\
  exists h_t c_t,
    LSTMCell_forward x_t (Some state, Some state) lstm_cell
    = (Ok (h_t, c_t), lstm_cell) /\
    has_shape h_t 2 2 /\ has_shape c_t 2 2.
Proof.
  split; [shapes |].
  destruct (@C1_LSTMCell_forward_equations R _ lstm_cell x_t state state 2)
    as (h_t & c_t & E & Sh & Sc & _); [shapes .. |].
  exists h_t, c_t. repeat split; (exact E || apply Sh || apply Sc).
Defined.

Lemma C2_witness :
  (wf_GRUCell gru_cell /\ has_shape x_t 2 1 /\ has_shape state 2 2) /\
  exists h_t,
    GRUCell_forward x_t (Some state) gru_cell = (Ok h_t, gru_cell) /\
    has_shape h_t 2 2.
Proof.
  split; [shapes |].
  destruct (@C2_GRUCell_forward_equations R _ gru_cell x_t state 2)
    as (h_t & E & Sh & _); [shapes .. |].
  exists h_t. repeat split; (exact E || apply Sh).
Defined.

Lemma C4_witness :
  (wf_LSTMModel lstm_model /\ wf_GRUModel gru_model /\
   wf_tensor3 (batch_of 3 1 [seq1; seq2])) /\
  (exists h_T c_T,
     lstm_state_after lstm_model (batch_of 3 1 [seq1; seq2]) 3
     = Ok (h_T, c_T) /\
     LSTMModel_forward (batch_of 3 1 [seq1; seq2]) lstm_model =
     (Ok (tabulate 2 1 (affine (lstm_fc lstm_model) h_T)), lstm_model)) /\
  (exists h_T,
     gru_state_after gru_model (batch_of 3 1 [seq1; seq2]) 3 = Ok h_T /\
     GRUModel_forward (batch_of 3 1 [seq1; seq2]) gru_model =
     (Ok (tabulate 2 1 (affine (gru_fc gru_model) h_T)), gru_model)).
Proof.
  split; [shapes |].
  destruct (@C4_sequence_reduction R _ lstm_model gru_model
              (batch_of 3 1 [seq1; seq2]))
    as ((_ & _ & h & c & E & _ & F) & (_ & _ & g & G & _ & F'));
    [shapes | shapes | shapes | reflexivity | reflexivity
    | simpl; lia | simpl; lia |].
  split.
  - exists h, c. split; assumption.
  - exists g. split; assumption.
Defined.

Lemma C8_witness :
  (wf_LSTMModel lstm_model /\ wf_GRUModel gru_model /\
   0 < size1 wide_step /\
   size2 wide_step <> lstm_input_size (lstm lstm_model) /\
   size2 wide_step <> gru_input_size (gru gru_model) /\
   ncols state <> lstm_input_size (lstm lstm_model) /\
   ncols state <> gru_input_size (gru gru_model)) /\
  LSTMModel_forward wide_step lstm_model = (Raise RuntimeError, lstm_model) /\
  GRUModel_forward wide_step gru_model = (Raise RuntimeError, gru_model) /\
  LSTMCell_forward state (Some state, Some state) (lstm lstm_model)
  = (Raise RuntimeError, lstm lstm_model) /\
  GRUCell_forward state (Some state) (gru gru_model)
  = (Raise RuntimeError, gru gru_model).
Proof.
  split.
  - repeat split; repeat constructor; simpl; lia.
  - apply (@C8_wrong_width_raises R _ lstm_model gru_model wide_step
             state state state);
      first [ simpl; lia | shapes ].
Defined.

(** The model accepts an input of the wrong width when it has no time
    steps: the loop body never runs and the output layer is applied to the
    zero state. *)
Lemma C8_counterexample :
  wf_LSTMModel lstm_model /\ wf_tensor3 no_steps /\
  size2 no_steps <> lstm_input_size (lstm lstm_model) /\
  exists y, LSTMModel_forward no_steps lstm_model = (Ok y, lstm_model).
Proof.
  split; [shapes |]. split; [shapes |].
  split; [simpl; lia |].
  eexists. vm_compute. reflexivity.
Qed.



End Instances.

(** ** Parameter initialisation *)

Section Initialisation.

Import ParamInit.
Local Open Scope R_scope.

(** Every [LSTMCell] parameter is refilled by [reset_parameters]. *)
Lemma LSTMCell_init_scaled (input_size hidden_size : nat) :
  Forall (fun p => p_law p = scaled_uniform hidden_size)
    (LSTMCell_parameters (LSTMCell__init__ input_size hidden_size)).
Proof. repeat constructor. Qed.

Lemma default_bound_1 : sqrt (1 / INR 1) = 1.
Proof.
  replace (1 / INR 1) with 1 by (simpl; lra). apply sqrt_1.
Qed.

Lemma scaled_bound_20_lt_1 : sqrt (3 / INR 20) <> 1.
Proof.
  intros E.
  assert (Hpos : 0 <= 3 / INR 20)
    by (rewrite INR_IZR_INZ; simpl Z.of_nat; lra).
  pose proof (sqrt_def _ Hpos) as Hsq. rewrite E in Hsq.
  rewrite INR_IZR_INZ in Hsq. simpl Z.of_nat in Hsq. lra.
Qed.

(** For a positive fan-in the default bound never equals the scaled one. *)
Lemma default_bound_neq_scaled (n : nat) :
  (0 < n)%nat -> sqrt (1 / INR n) <> sqrt (3 / INR n).
Proof.
  intros Hn E.
  assert (Hpos : 0 < INR n) by (apply lt_0_INR; exact Hn).
  assert (Hinv : 0 < / INR n) by (apply Rinv_0_lt_compat; exact Hpos).
  apply sqrt_inj in E; unfold Rdiv in *; nra.
Qed.

Lemma uniform_neq (lo hi lo' hi' : R) :
  hi <> hi' -> Uniform lo hi <> Uniform lo' hi'.
Proof. intros Hne [= _ E]. contradiction. Qed.

(** In a [GRUCell] the three projections of the hidden state keep the
    default law of [Linear], whatever the sizes. *)
Lemma GRUCell_hidden_projections_default (input_size hidden_size : nat) :
  (0 < hidden_size)%nat ->
  Forall (fun p => p_law p <> scaled_uniform hidden_size)
    (Linear_parameters (h_r_fc (GRUCell__init__ input_size hidden_size)) ++
     Linear_parameters (h_z_fc (GRUCell__init__ input_size hidden_size)) ++
     Linear_parameters (hr_h_fc (GRUCell__init__ input_size hidden_size))).
Proof.
  intros Hh.
  repeat constructor; apply uniform_neq;
    now apply default_bound_neq_scaled.
Qed.

(** C3 (code against claim).  [LSTMCell.__init__] ends with
    [reset_parameters], so all four of its parameter tensors are drawn from
    U(-s, s), s = sqrt (3 / hidden_size).  [GRUCell.__init__] has no such
    step: for [GRUCell(1, 20)] the input projections are drawn from
    U(-1, 1), the hidden projections from U(-sqrt(1/20), sqrt(1/20)), and
    none of its twelve parameter tensors follows U(-s, s). *)
Theorem C3_GRUCell_keeps_default_init :
  (forall input_size hidden_size,
     Forall (fun p => p_law p = scaled_uniform hidden_size)
       (LSTMCell_parameters (LSTMCell__init__ input_size hidden_size))) /\
  p_law (weight (x_z_fc (GRUCell__init__ 1 20))) = Uniform (- 1) 1 /\
  p_law (bias (x_z_fc (GRUCell__init__ 1 20))) = Uniform (- 1) 1 /\
  p_law (weight (h_z_fc (GRUCell__init__ 1 20)))
  = Uniform (- sqrt (1 / INR 20)) (sqrt (1 / INR 20)) /\
  Forall (fun p => p_law p <> scaled_uniform 20)
    (GRUCell_parameters (GRUCell__init__ 1 20)).
Proof.
  split; [intros; apply LSTMCell_init_scaled |].
  split; [cbv [p_law weight x_z_fc GRUCell__init__ Linear__init__];
          now rewrite default_bound_1 |].
  split; [cbv [p_law bias x_z_fc GRUCell__init__ Linear__init__];
          now rewrite default_bound_1 |].
  split; [reflexivity |].
  unfold GRUCell_parameters.
  repeat (apply Forall_cons || apply Forall_nil);
    apply uniform_neq;
    first [ rewrite default_bound_1; apply not_eq_sym, scaled_bound_20_lt_1
          | apply default_bound_neq_scaled; lia ].
Qed.

End Initialisation.

(** ** Activation ranges in exact arithmetic

    These concern the instance of the scalars over [R] only. *)

Section ExactRanges.

Local Open Scope R_scope.

Lemma Rdiv_lt_one (a d : R) : 0 < d -> a < d -> a / d < 1.
Proof.
  intros Hd Ha. apply (Rmult_lt_reg_r d); [assumption |].
  unfold Rdiv. rewrite Rmult_assoc, Rinv_l by lra. lra.
Qed.

Lemma Rdiv_gt_minus_one (a d : R) : 0 < d -> - d < a -> - 1 < a / d.
Proof.
  intros Hd Ha. apply (Rmult_lt_reg_r d); [assumption |].
  unfold Rdiv. rewrite Rmult_assoc, Rinv_l by lra. lra.
Qed.

Lemma Rsigmoid_range (x : R) : 0 < Rsigmoid x < 1.
Proof.
  unfold Rsigmoid. pose proof (exp_pos (- x)) as He.
  split.
  - apply Rdiv_lt_0_compat; lra.
  - apply Rdiv_lt_one; lra.
Qed.

Lemma Rtanh_range (x : R) : - 1 < Rtrigo_def.tanh x < 1.
Proof.
  unfold Rtrigo_def.tanh, sinh, cosh.
  pose proof (exp_pos x) as Ha. pose proof (exp_pos (- x)) as Hb.
  split.
  - apply Rdiv_gt_minus_one; lra.
  - apply Rdiv_lt_one; lra.
Qed.

End ExactRanges.

(** * Further properties of the code *)

(** ** Prefixes in time *)

Section Prefixes.

Context {T : Type} `{Scalar T}.

Lemma slice_take_steps (k : nat) (x : Tensor3 T) (i : nat) :
  i < k -> slice (take_steps k x) i = slice x i.
Proof.
  intros Hi. unfold slice, take_steps. simpl. f_equal.
  rewrite map_map. apply map_ext. intros s.
  rewrite nth_firstn. now destruct (Nat.ltb_spec i k); [| lia].
Qed.

Lemma size0_take_steps (k : nat) (x : Tensor3 T) :
  size0 (take_steps k x) = size0 x.
Proof. unfold size0, take_steps. simpl. apply length_map. Qed.

Lemma lstm_state_after_ext (m : LSTMModel T) (x x' : Tensor3 T) (k : nat) :
  size0 x = size0 x' -> (forall i, i < k -> slice x i = slice x' i) ->
  lstm_state_after m x k = lstm_state_after m x' k.
Proof.
  intros H0 Hs. induction k as [| k IH].
  - cbn [lstm_state_after]. now rewrite H0.
  - cbn [lstm_state_after]. rewrite IH by (intros; apply Hs; lia).
    now rewrite (Hs k) by lia.
Qed.

Lemma gru_state_after_ext (m : GRUModel T) (x x' : Tensor3 T) (k : nat) :
  size0 x = size0 x' -> (forall i, i < k -> slice x i = slice x' i) ->
  gru_state_after m x k = gru_state_after m x' k.
Proof.
  intros H0 Hs. induction k as [| k IH].
  - cbn [gru_state_after]. now rewrite H0.
  - cbn [gru_state_after]. rewrite IH by (intros; apply Hs; lia).
    now rewrite (Hs k) by lia.
Qed.

(** X1. The carried state after [k] steps is determined by the first [k]
    time steps: two inputs with the same first [k] steps reach the same
    state, and running the model on the prefix [x[:, :k, :]] returns the
    output layer applied to the state the full run has after step [k]. *)
Theorem X1_state_depends_on_prefix
    (lm : LSTMModel T) (gm : GRUModel T) (x x' : Tensor3 T) (k : nat) :
  k <= size1 x -> take_steps k x = take_steps k x' ->
  lstm_state_after lm x k = lstm_state_after lm x' k /\
  gru_state_after gm x k = gru_state_after gm x' k /\
  LSTMModel_forward (take_steps k x) lm =
    (match lstm_state_after lm x k with
     | Ok (h, _) => F_linear h (weight (lstm_fc lm)) (bias (lstm_fc lm))
     | Raise e => Raise e
     end, lm) /\
  GRUModel_forward (take_steps k x) gm =
    (match gru_state_after gm x k with
     | Ok h => F_linear h (weight (gru_fc gm)) (bias (gru_fc gm))
     | Raise e => Raise e
     end, gm).
Proof.
  intros Hk Heq.
  assert (H0 : size0 x = size0 x')
    by now rewrite <- (size0_take_steps k x), Heq, size0_take_steps.
  assert (Hs : forall i, i < k -> slice x i = slice x' i).
  { intros i Hi.
    now rewrite <- (slice_take_steps x Hi), Heq, slice_take_steps. }
  assert (Hk' : size1 (take_steps k x) = k)
    by (unfold take_steps; simpl; lia).
  repeat split.
  - now apply lstm_state_after_ext.
  - now apply gru_state_after_ext.
  - rewrite LSTMModel_forward_run, Hk'.
    rewrite (lstm_state_after_ext lm (x := take_steps k x) (x' := x) (k := k));
      [reflexivity | apply size0_take_steps |].
    intros i Hi. now apply slice_take_steps.
  - rewrite GRUModel_forward_run, Hk'.
    rewrite (gru_state_after_ext gm (x := take_steps k x) (x' := x) (k := k));
      [reflexivity | apply size0_take_steps |].
    intros i Hi. now apply slice_take_steps.
Qed.

(** X3. With zero time steps the cell is never run: forward returns the
    output layer applied to the all-zero state, whatever the width of the
    input and whatever the cell's parameters - two models with the same
    hidden size and output layer return the same result. *)
Theorem X3_no_time_steps
    (lm lm' : LSTMModel T) (gm gm' : GRUModel T) (x : Tensor3 T) :
  size1 x = 0 ->
  lstmm_hidden_size lm = lstmm_hidden_size lm' -> lstm_fc lm = lstm_fc lm' ->
  grum_hidden_size gm = grum_hidden_size gm' -> gru_fc gm = gru_fc gm' ->
  LSTMModel_forward x lm =
    (F_linear (zeros (size0 x) (lstmm_hidden_size lm))
       (weight (lstm_fc lm)) (bias (lstm_fc lm)), lm) /\
  GRUModel_forward x gm =
    (F_linear (zeros (size0 x) (grum_hidden_size gm))
       (weight (gru_fc gm)) (bias (gru_fc gm)), gm) /\
  fst (LSTMModel_forward x lm) = fst (LSTMModel_forward x lm') /\
  fst (GRUModel_forward x gm) = fst (GRUModel_forward x gm').
Proof.
  intros HT Hh Hfc Hg Hgfc.
  rewrite !LSTMModel_forward_run, !GRUModel_forward_run, HT.
  cbn [lstm_state_after gru_state_after fst].
  rewrite Hh, Hfc, Hg, Hgfc. repeat split.
Qed.

End Prefixes.

(** ** One row of a batch among the others *)

Section RowAmongOthers.

Context {T : Type} `{Scalar T}.

Lemma affine_row_ext (l : Linear T) (x x' : Tensor T) (i k : nat) :
  nth i (rows x) [] = nth i (rows x') [] ->
  affine l x i k = affine l x' i k.
Proof. intros E. unfold affine. now rewrite E. Qed.

Lemma at2_row_ext (x x' : Tensor T) (i j : nat) :
  nth i (rows x) [] = nth i (rows x') [] -> at2 x i j = at2 x' i j.
Proof. intros E. unfold at2. now rewrite E. Qed.

Lemma tabulate_row_ext (r c : nat) (f g : nat -> nat -> T) (i : nat) :
  i < r -> (forall j, j < c -> f i j = g i j) ->
  nth i (rows (tabulate r c f)) [] = nth i (rows (tabulate r c g)) [].
Proof.
  intros Hi Hfg. rewrite !row_tabulate by assumption.
  apply map_ext_in. intros j Hj. apply in_seq in Hj. apply Hfg. lia.
Qed.

Lemma slice_row (x : Tensor3 T) (k i : nat) :
  nth i (rows (slice x k)) [] = nth k (nth i (items x) []) [].
Proof.
  unfold slice. simpl.
  replace (@nil T) with (nth k (@nil (list T)) []) at 1 by now destruct k.
  exact (map_nth (fun s : list (list T) => nth k s []) (items x) [] i).
Qed.

Lemma lstm_rows_ext (self : LSTMCell T) (x h c x' h' c' : Tensor T)
    (i j : nat) :
  nth i (rows x) [] = nth i (rows x') [] ->
  nth i (rows h) [] = nth i (rows h') [] ->
  nth i (rows c) [] = nth i (rows c') [] ->
  lstm_h self x h c i j = lstm_h self x' h' c' i j /\
  lstm_c self x h c i j = lstm_c self x' h' c' i j.
Proof.
  intros Ex Eh Ec.
  unfold lstm_h, lstm_c, lstm_o, lstm_f, lstm_i, lstm_g, lstm_gates.
  rewrite !(@affine_row_ext _ _ _ _ _ Ex), !(@affine_row_ext _ _ _ _ _ Eh),
    !(@at2_row_ext _ _ _ _ Ec).
  split; reflexivity.
Qed.

Lemma gru_rows_ext (self : GRUCell T) (x h x' h' : Tensor T) (i j : nat) :
  i < nrows h -> i < nrows h' ->
  nth i (rows x) [] = nth i (rows x') [] ->
  nth i (rows h) [] = nth i (rows h') [] ->
  gru_h self x h i j = gru_h self x' h' i j.
Proof.
  intros Hi Hi' Ex Eh.
  unfold gru_h, gru_candidate, gru_z.
  rewrite !(@affine_row_ext _ _ _ _ _ Ex), !(@affine_row_ext _ _ _ _ _ Eh),
    !(@at2_row_ext _ _ _ _ Eh).
  do 4 f_equal. unfold gru_rh.
  apply affine_tabulate_ext; [assumption | assumption |].
  intros j' Hj'. unfold gru_r.
  now rewrite !(@affine_row_ext _ _ _ _ _ Ex), !(@affine_row_ext _ _ _ _ _ Eh),
    !(@at2_row_ext _ _ _ _ Eh).
Qed.

Lemma lstm_state_after_row (m : LSTMModel T) (x x' : Tensor3 T) (i k : nat) :
  wf_LSTMModel m -> wf_tensor3 x -> wf_tensor3 x' ->
  size0 x = size0 x' -> size1 x = size1 x' ->
  size2 x = lstm_input_size (lstm m) ->
  size2 x' = lstm_input_size (lstm m) ->
  0 < lstm_input_size (lstm m) -> 0 < lstm_hidden_size (lstm m) ->
  i < size0 x -> nth i (items x) [] = nth i (items x') [] ->
  k <= size1 x ->
  exists h c h' c',
    lstm_state_after m x k = Ok (h, c) /\
    lstm_state_after m x' k = Ok (h', c') /\
    has_shape h (size0 x) (lstm_hidden_size (lstm m)) /\
    has_shape c (size0 x) (lstm_hidden_size (lstm m)) /\
    has_shape h' (size0 x) (lstm_hidden_size (lstm m)) /\
    has_shape c' (size0 x) (lstm_hidden_size (lstm m)) /\
    nth i (rows h) [] = nth i (rows h') [] /\
    nth i (rows c) [] = nth i (rows c') [].
Proof.
  intros Hm Hx Hx' H0 H1 H2 H2' HI HH Hi Hrow.
  pose proof Hm as (Hcell & _ & Hhid & _).
  induction k as [| k IH]; intros Hk.
  - cbn [lstm_state_after]. rewrite <- H0, <- Hhid.
    do 4 eexists. repeat split; apply has_shape_zeros.
  - destruct IH as (h & c & h' & c' & E & E' & Sh & Sc & Sh' & Sc' & Rh & Rc);
      [lia |].
    assert (Ss : has_shape (slice x k) (size0 x) (lstm_input_size (lstm m))).
    { destruct x as [Tm W its]. simpl in *. subst W.
      apply (has_shape_slice Hx); simpl; lia. }
    assert (Ss' : has_shape (slice x' k) (size0 x)
                    (lstm_input_size (lstm m))).
    { rewrite H0. destruct x' as [Tm W its]. simpl in *. subst W.
      apply (has_shape_slice Hx'); simpl; lia. }
    cbn [lstm_state_after]. rewrite E, E'.
    rewrite (LSTMCell_forward_closed Hcell HI HH Ss Sh Sc).
    rewrite (LSTMCell_forward_closed Hcell HI HH Ss' Sh' Sc').
    cbn [fst]. do 4 eexists.
    split; [reflexivity |]. split; [reflexivity |].
    repeat (split; [apply has_shape_tabulate |]).
    assert (Rx : nth i (rows (slice x k)) [] = nth i (rows (slice x' k)) [])
      by now rewrite !slice_row, Hrow.
    split; apply tabulate_row_ext; try assumption; intros j Hj;
      apply (lstm_rows_ext (lstm m) _ _ _ _ _ _ i j Rx Rh Rc).
Qed.

Lemma gru_state_after_row (m : GRUModel T) (x x' : Tensor3 T) (i k : nat) :
  wf_GRUModel m -> wf_tensor3 x -> wf_tensor3 x' ->
  size0 x = size0 x' -> size1 x = size1 x' ->
  size2 x = gru_input_size (gru m) ->
  size2 x' = gru_input_size (gru m) ->
  i < size0 x -> nth i (items x) [] = nth i (items x') [] ->
  k <= size1 x ->
  exists h h',
    gru_state_after m x k = Ok h /\
    gru_state_after m x' k = Ok h' /\
    has_shape h (size0 x) (gru_hidden_size (gru m)) /\
    has_shape h' (size0 x) (gru_hidden_size (gru m)) /\
    nth i (rows h) [] = nth i (rows h') [].
Proof.
  intros Hm Hx Hx' H0 H1 H2 H2' Hi Hrow.
  pose proof Hm as (Hcell & _ & Hhid & _).
  induction k as [| k IH]; intros Hk.
  - cbn [gru_state_after]. rewrite <- H0, <- Hhid.
    do 2 eexists. repeat split; apply has_shape_zeros.
  - destruct IH as (h & h' & E & E' & Sh & Sh' & Rh); [lia |].
    assert (Ss : has_shape (slice x k) (size0 x) (gru_input_size (gru m))).
    { destruct x as [Tm W its]. simpl in *. subst W.
      apply (has_shape_slice Hx); simpl; lia. }
    assert (Ss' : has_shape (slice x' k) (size0 x)
                    (gru_input_size (gru m))).
    { rewrite H0. destruct x' as [Tm W its]. simpl in *. subst W.
      apply (has_shape_slice Hx'); simpl; lia. }
    cbn [gru_state_after]. rewrite E, E'.
    rewrite (GRUCell_forward_closed Hcell Ss Sh).
    rewrite (GRUCell_forward_closed Hcell Ss' Sh').
    cbn [fst]. do 2 eexists.
    split; [reflexivity |]. split; [reflexivity |].
    repeat (split; [apply has_shape_tabulate |]).
    assert (Rx : nth i (rows (slice x k)) [] = nth i (rows (slice x' k)) [])
      by now rewrite !slice_row, Hrow.
    apply tabulate_row_ext; [assumption |]. intros j Hj.
    destruct Sh as (Nh & _), Sh' as (Nh' & _).
    apply gru_rows_ext; (assumption || lia).
Qed.

(** X2. Within a mini-batch a prediction does not depend on the other
    sequences: for two well-shaped batches of the same size and length that
    hold the same sequence at position [i], forward succeeds on both and
    returns the same output row [i]. *)
Theorem X2_row_independent_of_other_rows
    (lm : LSTMModel T) (gm : GRUModel T) (x x' : Tensor3 T) (i : nat) :
  wf_LSTMModel lm -> wf_GRUModel gm -> wf_tensor3 x -> wf_tensor3 x' ->
  size0 x = size0 x' -> size1 x = size1 x' -> size2 x = size2 x' ->
  size2 x = lstm_input_size (lstm lm) ->
  size2 x = gru_input_size (gru gm) ->
  0 < size2 x -> 0 < lstmm_hidden_size lm ->
  i < size0 x -> nth i (items x) [] = nth i (items x') [] ->
  (exists y y',
     LSTMModel_forward x lm = (Ok y, lm) /\
     LSTMModel_forward x' lm = (Ok y', lm) /\
     nrows y = size0 x /\ nrows y' = size0 x /\
     nth i (rows y) [] = nth i (rows y') []) /\
  (exists y y',
     GRUModel_forward x gm = (Ok y, gm) /\
     GRUModel_forward x' gm = (Ok y', gm) /\
     nrows y = size0 x /\ nrows y' = size0 x /\
     nth i (rows y) [] = nth i (rows y') []).
Proof.
  intros Hlm Hgm Hx Hx' H0 H1 H2 HIl HIg Hpos HH Hi Hrow. split.
  - pose proof Hlm as (_ & Hfc & Hhid & Hfci).
    destruct (lstm_state_after_row (m := lm) (x := x) (x' := x') (i := i)
                (k := size1 x))
      as (h & c & h' & c' & E & E' & (Rh & Ch & _) & _ & (Rh' & Ch' & _)
          & _ & Rr & _);
      try assumption; try congruence; try lia.
    do 2 eexists. rewrite !LSTMModel_forward_run, <- H1, E, E'.
    rewrite (F_linear_closed (l := lstm_fc lm) h Rh) by congruence.
    rewrite (F_linear_closed (l := lstm_fc lm) h' Rh') by congruence.
    split; [reflexivity |]. split; [reflexivity |].
    split; [apply has_shape_tabulate |]. split; [apply has_shape_tabulate |].
    apply tabulate_row_ext; [assumption |]. intros j Hj.
    now apply affine_row_ext.
  - pose proof Hgm as (_ & Hfc & Hhid & Hfci).
    destruct (gru_state_after_row (m := gm) (x := x) (x' := x') (i := i)
                (k := size1 x))
      as (h & h' & E & E' & (Rh & Ch & _) & (Rh' & Ch' & _) & Rr);
      try assumption; try congruence; try lia.
    do 2 eexists. rewrite !GRUModel_forward_run, <- H1, E, E'.
    rewrite (F_linear_closed (l := gru_fc gm) h Rh) by congruence.
    rewrite (F_linear_closed (l := gru_fc gm) h' Rh') by congruence.
    split; [reflexivity |]. split; [reflexivity |].
    split; [apply has_shape_tabulate |]. split; [apply has_shape_tabulate |].
    apply tabulate_row_ext; [assumption |]. intros j Hj.
    now apply affine_row_ext.
Qed.

End RowAmongOthers.

(** ** Shape errors of a cell step *)

Section CellShapeErrors.

Context {T : Type} `{Scalar T}.

Ltac lens := let s := fresh "s" in intros s; destruct s; reflexivity.

Lemma F_linear_cases (x W : Tensor T) (b : list T) :
  (exists y, F_linear x W b = Ok y) \/ F_linear x W b = Raise RuntimeError.
Proof.
  unfold F_linear. destruct (ncols x =? ncols W); [left; eauto | now right].
Qed.

Lemma t_binop_rows_mismatch (f : T -> T -> T) (r1 r2 c : nat)
    (g1 g2 : nat -> nat -> T) :
  broadcast_dim r1 r2 = None ->
  t_binop f (tabulate r1 c g1) (tabulate r2 c g2) = Raise RuntimeError.
Proof.
  intros Hb. unfold t_binop.
  destruct (has_shape_tabulate r1 c g1) as (-> & _).
  destruct (has_shape_tabulate r2 c g2) as (-> & _).
  now rewrite Hb.
Qed.

Lemma broadcast_dim_None (a b : nat) :
  a <> b -> a <> 1 -> b <> 1 -> broadcast_dim a b = None.
Proof.
  intros Hab Ha Hb. unfold broadcast_dim.
  destruct (Nat.eqb_spec a b); [contradiction |].
  destruct (Nat.eqb_spec a 1); [contradiction |].
  destruct (Nat.eqb_spec b 1); [contradiction | reflexivity].
Qed.

(** A hidden state of the wrong width is rejected whatever the input. *)
Lemma LSTMCell_forward_bad_state_width (self : LSTMCell T)
    (x_t h c : Tensor T) :
  ncols h <> ncols (weight (h_fc self)) ->
  LSTMCell_forward x_t (Some h, Some c) self = (Raise RuntimeError, self).
Proof.
  intros Hne. unfold LSTMCell_forward.
  destruct (view_flat_cases x_t) as [E | E];
    [erewrite bind_lift_Ok by exact E | now erewrite bind_lift_Raise by exact E].
  destruct (view_flat_cases h) as [Eh | Eh];
    [erewrite bind_lift_Ok by exact Eh
    | now erewrite bind_lift_Raise by exact Eh].
  destruct (view_flat_cases c) as [Ec | Ec];
    [erewrite bind_lift_Ok by exact Ec
    | now erewrite bind_lift_Raise by exact Ec].
  destruct (F_linear_cases x_t (weight (x_fc self)) (bias (x_fc self)))
    as [(gx & Ex) | Ex];
    [erewrite bind_call_Linear; [| lens | exact Ex]
    | now apply bind_call_Linear_Raise; [lens |]].
  apply bind_call_Linear_Raise; [lens | now apply F_linear_bad_width].
Qed.

Lemma GRUCell_forward_bad_state_width (self : GRUCell T)
    (x_t h : Tensor T) :
  ncols h <> ncols (weight (h_z_fc self)) ->
  GRUCell_forward x_t (Some h) self = (Raise RuntimeError, self).
Proof.
  intros Hne. unfold GRUCell_forward.
  destruct (F_linear_cases x_t (weight (x_z_fc self)) (bias (x_z_fc self)))
    as [(gx & Ex) | Ex];
    [erewrite bind_call_Linear; [| lens | exact Ex]
    | now apply bind_call_Linear_Raise; [lens |]].
  apply bind_call_Linear_Raise; [lens | now apply F_linear_bad_width].
Qed.

(** X4. A cell step whose input and previous hidden state have different
    numbers of rows, neither of them 1, raises torch's shape error and
    leaves the cell unchanged: the batch sizes can only differ by
    broadcasting a single row. *)
Theorem X4_batch_mismatch_raises
    (lc : LSTMCell T) (gc : GRUCell T)
    (x_l h_l c_l x_g h_g : Tensor T) (B1 B2 : nat) :
  wf_LSTMCell lc -> wf_GRUCell gc ->
  0 < lstm_input_size lc -> 0 < lstm_hidden_size lc ->
  has_shape x_l B1 (lstm_input_size lc) ->
  has_shape h_l B2 (lstm_hidden_size lc) ->
  has_shape x_g B1 (gru_input_size gc) ->
  has_shape h_g B2 (gru_hidden_size gc) ->
  B1 <> B2 -> B1 <> 1 -> B2 <> 1 ->
  LSTMCell_forward x_l (Some h_l, Some c_l) lc = (Raise RuntimeError, lc) /\
  GRUCell_forward x_g (Some h_g) gc = (Raise RuntimeError, gc).
Proof.
  intros (Hwx & Hwh & Hxi & Hxo & Hhi & Hho)
         (Wxr & Wxz & Wxh & Whr & Whz & Whh &
          Ixr & Ixz & Ixh & Ihr & Ihz & Ihh &
          Oxr & Oxz & Oxh & Ohr & Ohz & Ohh)
         HI HH (Hxr & Hxc & _) (Hhr & Hhc & _)
         (Gxr & Gxc & _) (Ghr & Ghc & _) Hne H1 H2.
  pose proof (broadcast_dim_None Hne H1 H2) as Hb.
  split.
  - unfold LSTMCell_forward.
    erewrite bind_lift_Ok by (apply view_flat_ok; lia).
    erewrite bind_lift_Ok by (apply (view_flat_ok h_l); lia).
    destruct (view_flat_cases c_l) as [Ec | Ec];
      [erewrite bind_lift_Ok by exact Ec
      | now erewrite bind_lift_Raise by exact Ec].
    erewrite bind_call_Linear;
      [| lens | apply F_linear_closed; [exact Hxr | lia | assumption]].
    erewrite bind_call_Linear;
      [| lens | apply F_linear_closed; [exact Hhr | lia | assumption]].
    rewrite Hxo, Hho.
    now erewrite bind_lift_Raise by (apply t_binop_rows_mismatch; exact Hb).
  - unfold GRUCell_forward.
    erewrite bind_call_Linear;
      [| lens | apply F_linear_closed; [exact Gxr | lia | assumption]].
    erewrite bind_call_Linear;
      [| lens | apply F_linear_closed; [exact Ghr | lia | assumption]].
    rewrite Oxz, Ohz.
    now erewrite bind_lift_Raise by (apply t_binop_rows_mismatch; exact Hb).
Qed.

(** X5. A cell step given a previous hidden state whose width differs from
    hidden_size raises torch's shape error for every input, and leaves the
    cell unchanged. *)
Theorem X5_state_width_mismatch_raises
    (lc : LSTMCell T) (gc : GRUCell T) (x_t h c : Tensor T) :
  wf_LSTMCell lc -> wf_GRUCell gc ->
  ncols h <> lstm_hidden_size lc -> ncols h <> gru_hidden_size gc ->
  LSTMCell_forward x_t (Some h, Some c) lc = (Raise RuntimeError, lc) /\
  GRUCell_forward x_t (Some h) gc = (Raise RuntimeError, gc).
Proof.
  intros (_ & Hwh & _ & _ & Hhi & _) Hgc Hl Hg. split.
  - apply LSTMCell_forward_bad_state_width.
    rewrite (wf_linear_weight_width Hwh). congruence.
  - apply GRUCell_forward_bad_state_width.
    destruct Hgc as (_ & _ & _ & _ & Whz & _ & _ & _ & _ & _ & Ihz & _).
    rewrite (wf_linear_weight_width Whz). congruence.
Qed.

End CellShapeErrors.

(** ** The fused projections gate by gate *)

Section GateBlocks.

Context {T : Type} `{Scalar T}.

Lemma Forall_firstn {A} (P : A -> Prop) (n : nat) (l : list A) :
  Forall P l -> Forall P (firstn n l).
Proof.
  intros Hl. revert n. induction Hl as [| a l Ha Hl IH]; intros [| n];
    simpl; constructor; auto.
Qed.

Lemma Forall_skipn {A} (P : A -> Prop) (n : nat) (l : list A) :
  Forall P l -> Forall P (skipn n l).
Proof.
  intros Hl. revert n. induction Hl as [| a l Ha Hl IH]; intros [| n];
    simpl; auto.
Qed.

Lemma wf_linear_block (l : Linear T) (k h : nat) :
  wf_linear l -> out_features l = 4 * h -> k < 4 ->
  wf_linear (linear_block l k h) /\
  in_features (linear_block l k h) = in_features l /\
  out_features (linear_block l k h) = h.
Proof.
  intros ((Hr & Hc & Hw) & Hb) Ho Hk.
  unfold wf_linear, has_shape, nrows, wf_tensor, linear_block in *.
  simpl. rewrite !length_firstn, !length_skipn, Hr, Hb, Ho.
  repeat split; try nia; try assumption.
  now apply Forall_firstn, Forall_skipn.
Qed.

Lemma affine_block (l : Linear T) (k h : nat) (x : Tensor T) (b j : nat) :
  j < h ->
  affine (linear_block l k h) x b j = affine l x b (k * h + j).
Proof.
  intros Hj. unfold affine, linear_block. simpl.
  rewrite !nth_firstn, !nth_skipn.
  now destruct (Nat.ltb_spec j h); [| lia].
Qed.

Lemma gate_pre_closed (self : LSTMCell T) (k : nat) (x_t h_t_1 : Tensor T)
    (B : nat) :
  wf_LSTMCell self -> k < 4 ->
  has_shape x_t B (lstm_input_size self) ->
  has_shape h_t_1 B (lstm_hidden_size self) ->
  gate_pre self k x_t h_t_1 =
  Ok (tabulate B (lstm_hidden_size self)
        (fun b j => lstm_gates self x_t h_t_1 b
                      (k * lstm_hidden_size self + j))).
Proof.
  intros (Hwx & Hwh & Hxi & Hxo & Hhi & Hho) Hk
         (Hxr & Hxc & _) (Hhr & Hhc & _).
  destruct (@wf_linear_block (x_fc self) k _ Hwx Hxo Hk) as (Wx & Ix & Ox).
  destruct (@wf_linear_block (h_fc self) k _ Hwh Hho Hk) as (Wh & Ih & Oh).
  unfold gate_pre. cbv zeta.
  rewrite (F_linear_closed (l := linear_block (x_fc self) k _) x_t Hxr)
    by (assumption || congruence).
  rewrite (F_linear_closed (l := linear_block (h_fc self) k _) h_t_1 Hhr)
    by (assumption || congruence).
  cbn [out_features linear_block].
  unfold t_add. rewrite t_binop_tabulate. f_equal.
  apply tabulate_ext. intros b j Hb Hj.
  unfold lstm_gates. now rewrite !affine_block.
Qed.

(** X6. Fusing the four gates into one projection of the input and one of
    the hidden state changes nothing: the step computed gate by gate, each
    gate with its own pair of layers holding rows [k * hidden_size, ...,
    (k + 1) * hidden_size - 1] of [x_fc] and [h_fc] (k = 0, 1, 2, 3 for
    i, f, g, o), returns the same [(h_t, c_t)] as [LSTMCell.forward]. *)
Theorem X6_fused_gates_equal_separate_gates
    (self : LSTMCell T) (x_t h_t_1 c_t_1 : Tensor T) (B : nat) :
  wf_LSTMCell self ->
  0 < lstm_input_size self -> 0 < lstm_hidden_size self ->
  has_shape x_t B (lstm_input_size self) ->
  has_shape h_t_1 B (lstm_hidden_size self) ->
  has_shape c_t_1 B (lstm_hidden_size self) ->
  LSTMCell_forward x_t (Some h_t_1, Some c_t_1) self =
  (LSTMCell_step_by_gate self x_t h_t_1 c_t_1, self).
Proof.
  intros Hwf HI HH Hx Hh Hc.
  rewrite (LSTMCell_forward_closed Hwf HI HH Hx Hh Hc). f_equal.
  unfold LSTMCell_step_by_gate.
  rewrite !(gate_pre_closed (B := B)) by (assumption || lia).
  unfold t_sigmoid, t_tanh, t_mul, t_add.
  rewrite !t_map_tabulate.
  rewrite (t_binop_tabulate_r _ _ Hc), !t_binop_tabulate.
  rewrite !t_map_tabulate, !t_binop_tabulate.
  f_equal. f_equal; apply tabulate_ext; intros b j Hb Hj;
    unfold lstm_h, lstm_c, lstm_o, lstm_f, lstm_i, lstm_g;
    repeat f_equal; lia.
Qed.

End GateBlocks.

(** ** generate_dataset *)

Section DatasetFacts.

Context {T : Type} `{Scalar T}.
Variable G : Type.
Variable randint_raw : nat -> G -> nat * G.
Variable choice_raw : nat -> nat -> nat -> G -> list nat * G.

Lemma list_sum_bits (q : list nat) :
  Forall (fun b => b < 2) q ->
  list_sum q = count_occ Nat.eq_dec q 1 /\ list_sum q <= length q.
Proof.
  induction 1 as [| b q Hb Hq (IH1 & IH2)]; simpl; [split; lia |].
  destruct (Nat.eq_dec b 1); split; lia.
Qed.

Lemma to_int8_small (z : Z) : (0 <= z <= 127)%Z -> to_int8 z = z.
Proof.
  intros Hz. unfold to_int8. rewrite Z.mod_small; lia.
Qed.

Lemma generate_dataset_loop (n : nat) (idxs : list nat) :
  0 < n ->
  forall sequences labels g,
  exists new g',
    for_range idxs
      (fun (i : nat) (acc : list (list nat) * list Z) =>
         let '(sequences, labels) := acc in
         k <- np_randint randint_raw n ;;
         sequence <- np_choice2 choice_raw n k n ;;
         ret (sequences ++ [sequence],
              labels ++ [Z.of_nat (list_sum sequence)]))
      (sequences, labels) g
    = (Ok (sequences ++ new,
           labels ++ map (fun q => Z.of_nat (list_sum q)) new), g') /\
    length new = length idxs /\
    Forall (fun q => exists k g1, q = fst (choice_raw n k n g1)) new.
Proof.
  intros Hn.
  set (body := fun (i : nat) (acc : list (list nat) * list Z) => _).
  assert (Hbody : forall i sequences labels g,
             exists q g2,
               body i (sequences, labels) g =
               (Ok (sequences ++ [q], labels ++ [Z.of_nat (list_sum q)]), g2)
               /\ exists k g1, q = fst (choice_raw n k n g1)).
  { intros i sequences labels g.
    unfold body, bind, np_randint, np_choice2, ret.
    destruct (Nat.eqb_spec n 0) as [E | _]; [lia |].
    destruct (randint_raw n g) as [k g1].
    destruct (choice_raw n k n g1) as [q g2] eqn:Eq.
    exists q, g2. split; [reflexivity |].
    exists k, g1. now rewrite Eq. }
  clearbody body.
  induction idxs as [| i idxs IH]; intros sequences labels g.
  - exists [], g. simpl. rewrite !app_nil_r. repeat split. constructor.
  - cbn [for_range]. unfold bind.
    destruct (Hbody i sequences labels g) as (q & g2 & Eb & Hq).
    rewrite Eb.
    destruct (IH (sequences ++ [q])
                 (labels ++ [Z.of_nat (list_sum q)]) g2)
      as (new & g' & E & Hlen & Hnew).
    exists (q :: new), g'. rewrite E. simpl.
    rewrite <- !app_assoc. repeat split; [lia |].
    constructor; assumption.
Qed.

Lemma generate_dataset_draws (n samples : nat) (g : G) :
  0 < n ->
  exists raw g',
    generate_dataset randint_raw choice_raw n samples g =
    (Ok (mkTensorDataset (map float_unsqueeze raw)
           (map (fun q => to_int8 (Z.of_nat (list_sum q))) raw)), g') /\
    length raw = samples /\
    Forall (fun q => exists k g1, q = fst (choice_raw n k n g1)) raw.
Proof.
  intros Hn.
  destruct (generate_dataset_loop (seq 0 samples) Hn [] [] g)
    as (new & g' & E & Hlen & Hnew).
  exists new, g'. unfold generate_dataset, bind at 1. rewrite E.
  simpl. rewrite map_map, length_seq in *. repeat split; assumption.
Qed.

Lemma generate_dataset_run (n samples : nat) (g : G) :
  choice_contract choice_raw -> 0 < n ->
  exists raw g',
    generate_dataset randint_raw choice_raw n samples g =
    (Ok (mkTensorDataset (map float_unsqueeze raw)
           (map (fun q => to_int8 (Z.of_nat (list_sum q))) raw)), g') /\
    length raw = samples /\ Forall (is_bit_sequence n) raw.
Proof.
  intros Hchoice Hn.
  destruct (generate_dataset_draws samples g Hn)
    as (raw & g' & E & Hlen & Hraw).
  exists raw, g'. repeat split; try assumption.
  eapply Forall_impl; [| exact Hraw].
  intros q (k & g1 & ->). apply Hchoice.
Qed.

Lemma wf_float_unsqueeze (n : nat) (q : list nat) :
  is_bit_sequence n q -> wf_sequence n 1 (float_unsqueeze (T := T) q).
Proof.
  intros (Hlen & _). unfold wf_sequence, float_unsqueeze.
  rewrite length_map. split; [assumption |].
  apply Forall_map, Forall_forall. reflexivity.
Qed.

(** X7. For a positive sequence_length of at most 127, [generate_dataset]
    returns [samples] sequences and [samples] labels; every sequence has
    sequence_length entries, each the float of a 0/1 draw stored as a
    vector of width 1, and each label is exactly the number of ones in its
    sequence (the int8 label array does not wrap). *)
Theorem X7_generate_dataset_labels_count_ones
    (sequence_length samples : nat) (g : G) :
  choice_contract choice_raw -> 0 < sequence_length -> sequence_length <= 127 ->
  exists raw g',
    generate_dataset randint_raw choice_raw sequence_length samples g =
    (Ok (mkTensorDataset (map float_unsqueeze raw)
           (map (fun q => Z.of_nat (count_occ Nat.eq_dec q 1)) raw)), g') /\
    length raw = samples /\
    Forall (is_bit_sequence sequence_length) raw.
Proof.
  intros Hchoice Hn H127.
  destruct (generate_dataset_run samples g Hchoice Hn)
    as (raw & g' & E & Hlen & Hraw).
  exists raw, g'. split; [| split; assumption].
  rewrite E. do 3 f_equal.
  apply map_ext_in. intros q Hq.
  rewrite Forall_forall in Hraw. destruct (Hraw q Hq) as (Hl & Hb).
  destruct (list_sum_bits Hb) as (Hc & Hle).
  rewrite to_int8_small by lia. now rewrite Hc.
Qed.

(** X8. For a sequence_length of at most 127, [generate_dataset] returns a
    dataset, of [samples] sequences and [samples] labels, exactly when
    sequence_length is positive or no sample is asked for; every label then
    lies between 0 and sequence_length, so that none is changed by its
    storage in the int8 label array.  [generate_dataset(0, samples)] with
    [samples > 0] raises ValueError at the first [np.random.randint(0)],
    before anything is drawn; with [samples = 0] the dataset is empty and
    the generator is not touched. *)
Theorem X8_generate_dataset_edges
    (sequence_length samples : nat) (g : G) :
  choice_contract choice_raw -> sequence_length <= 127 ->
  ((0 < sequence_length \/ samples = 0) <->
   exists ds g',
     generate_dataset (T := T) randint_raw choice_raw
       sequence_length samples g = (Ok ds, g') /\
     length (ds_sequences ds) = samples /\
     length (ds_labels ds) = samples /\
     Forall (fun l => (0 <= l <= Z.of_nat sequence_length)%Z)
       (ds_labels ds)) /\
  generate_dataset (T := T) randint_raw choice_raw 0 (S samples) g
  = (Raise ValueError, g) /\
  generate_dataset (T := T) randint_raw choice_raw sequence_length 0 g
  = (Ok (mkTensorDataset [] []), g).
Proof.
  intros Hchoice H127.
  split; [| split; reflexivity].
  split.
  - intros [Hn | ->].
    + destruct (generate_dataset_run samples g Hchoice Hn)
        as (raw & g' & E & Hlen & Hraw).
      do 2 eexists. split; [exact E |].
      simpl. rewrite !length_map. repeat split; try assumption.
      apply Forall_map. eapply Forall_impl; [| exact Hraw].
      intros q (Hl & Hb). destruct (list_sum_bits Hb) as (_ & Hle).
      rewrite to_int8_small; lia.
    + do 2 eexists. split; [reflexivity |].
      repeat split; constructor.
  - intros (ds & g' & E & _).
    destruct sequence_length as [| n]; [| left; lia].
    destruct samples as [| s]; [now right | discriminate E].
Qed.

Lemma LSTMModel_forward_Ok (m : LSTMModel T) (x : Tensor3 T) :
  wf_LSTMModel m -> wf_tensor3 x ->
  size2 x = lstm_input_size (lstm m) ->
  0 < size2 x -> 0 < lstmm_hidden_size m ->
  exists y,
    LSTMModel_forward x m = (Ok y, m) /\
    has_shape y (size0 x) (out_features (lstm_fc m)).
Proof.
  intros Hm Hx HI Hpos HH.
  destruct (lstm_state_after_Ok Hm Hx HI Hpos HH (le_n _))
    as (h & c & E & (Hr & Hc & _) & _).
  destruct Hm as (_ & Hfc & _ & Hfci).
  eexists. rewrite LSTMModel_forward_run, E.
  rewrite (F_linear_closed (l := lstm_fc m) h Hr) by congruence.
  split; [reflexivity | apply has_shape_tabulate].
Qed.

Lemma GRUModel_forward_Ok (m : GRUModel T) (x : Tensor3 T) :
  wf_GRUModel m -> wf_tensor3 x ->
  size2 x = gru_input_size (gru m) ->
  exists y,
    GRUModel_forward x m = (Ok y, m) /\
    has_shape y (size0 x) (out_features (gru_fc m)).
Proof.
  intros Hm Hx HI.
  destruct (gru_state_after_Ok Hm Hx HI (le_n _))
    as (h & E & (Hr & Hc & _)).
  destruct Hm as (_ & Hfc & _ & Hfci).
  eexists. rewrite GRUModel_forward_run, E.
  rewrite (F_linear_closed (l := gru_fc m) h Hr) by congruence.
  split; [reflexivity | apply has_shape_tabulate].
Qed.

(** X9. Every mini-batch stacked from samples of a generated dataset is
    accepted by models built with input_size 1: forward returns, without
    raising, one output row of output_size entries per chosen sample. *)
Theorem X9_models_accept_generated_batches
    (lm : LSTMModel T) (gm : GRUModel T)
    (sequence_length samples : nat) (g g' : G) (ds : TensorDataset)
    (chosen : list (list (list T))) :
  choice_contract choice_raw -> 0 < sequence_length ->
  wf_LSTMModel lm -> wf_GRUModel gm ->
  lstm_input_size (lstm lm) = 1 -> gru_input_size (gru gm) = 1 ->
  0 < lstmm_hidden_size lm ->
  generate_dataset randint_raw choice_raw sequence_length samples g
  = (Ok ds, g') ->
  incl chosen (ds_sequences ds) ->
  (exists y,
     LSTMModel_forward (collate sequence_length chosen) lm = (Ok y, lm) /\
     has_shape y (length chosen) (out_features (lstm_fc lm))) /\
  (exists y,
     GRUModel_forward (collate sequence_length chosen) gm = (Ok y, gm) /\
     has_shape y (length chosen) (out_features (gru_fc gm))).
Proof.
  intros Hchoice Hn Hlm Hgm HIl HIg HH Hgen Hincl.
  destruct (generate_dataset_run samples g Hchoice Hn)
    as (raw & g2 & E & Hlen & Hraw).
  rewrite E in Hgen. injection Hgen as <- _.
  assert (Hwf : wf_tensor3 (collate sequence_length chosen)).
  { unfold wf_tensor3, collate, batch_of. simpl.
    apply Forall_forall. intros s Hs. apply Hincl in Hs. simpl in Hs.
    apply in_map_iff in Hs. destruct Hs as (q & <- & Hq).
    rewrite Forall_forall in Hraw.
    apply (wf_float_unsqueeze (Hraw q Hq)). }
  split.
  - apply (LSTMModel_forward_Ok Hlm Hwf); simpl; (congruence || lia).
  - apply (GRUModel_forward_Ok Hgm Hwf); simpl; congruence.
Qed.

End DatasetFacts.

(** ** Text generation loop *)

Section TextGenFacts.

Variables Mems Predictions : Type.
Variable model : list nat -> option Mems -> Predictions * Mems.
Variable top1 : Predictions -> nat.
Variable decode : nat -> string.
Variable eos_token : string.

Lemma generate_loop_spec (fuel : nat) (st : GenState Mems) :
  let st' := generate_loop model top1 decode eos_token fuel st in
  exists idxs,
    tokens_tensor st' = tokens_tensor st ++ idxs /\
    predicted_tokens st' = predicted_tokens st ++ map decode idxs /\
    length idxs <= fuel /\
    Forall (fun i => decode i <> eos_token) idxs /\
    (length idxs < fuel ->
     exists m0,
       decode (top1 (fst (model (tokens_tensor st') m0))) = eos_token).
Proof.
  revert st. induction fuel as [| fuel IH]; intros st; cbv zeta.
  - exists []. simpl. rewrite !app_nil_r.
    repeat split; [lia | constructor | lia].
  - cbn [generate_loop].
    destruct (model (tokens_tensor st) (mems st)) as [p m'] eqn:Em.
    destruct (string_dec (decode (top1 p)) eos_token) as [Heos | Hne].
    + exists []. simpl. rewrite !app_nil_r.
      repeat split; [lia | constructor |].
      intros _. exists (mems st). now rewrite Em.
    + destruct (IH (mkGenState (tokens_tensor st ++ [top1 p]) (Some m')
                      (predicted_tokens st ++ [decode (top1 p)])))
        as (idxs & Et & Ep & Hlen & Hall & Hstop).
      cbv zeta in Hstop. cbn [tokens_tensor predicted_tokens] in Et, Ep.
      exists (top1 p :: idxs). rewrite Et, Ep, <- !app_assoc.
      cbn [map app length].
      repeat split; [lia | now constructor |].
      intros Hlt. destruct Hstop as (m0 & Hm0); [lia |].
      exists m0. rewrite Et, <- app_assoc in Hm0. exact Hm0.
Qed.

(** X10. The generation loop emits at most 50 tokens, and the token tensor
    grows in lockstep with the output: it ends as the encoded seed followed
    by the predicted indices, and the predicted words are exactly the
    decodings of those indices, in order. *)
Theorem X10_generation_is_bounded_and_in_lockstep (encoded_text : list nat) :
  let final := generate model top1 decode eos_token encoded_text in
  exists idxs,
    tokens_tensor final = encoded_text ++ idxs /\
    predicted_tokens final = map decode idxs /\
    length (predicted_tokens final) <= 50 /\
    length (tokens_tensor final)
    = length encoded_text + length (predicted_tokens final).
Proof.
  cbv zeta. unfold generate.
  destruct (generate_loop_spec 50 (mkGenState encoded_text None []))
    as (idxs & Et & Ep & Hlen & _).
  exists idxs. cbn [tokens_tensor predicted_tokens app] in Et, Ep.
  rewrite Et, Ep.
  rewrite length_app, length_map. repeat split. exact Hlen.
Qed.

(** X11. The end-of-sequence token is never stored among the predicted
    tokens, and the loop stops before 50 tokens only at a prediction that
    decodes to end-of-sequence for the final token tensor. *)
Theorem X11_generation_stops_at_eos (encoded_text : list nat) :
  let final := generate model top1 decode eos_token encoded_text in
  ~ In eos_token (predicted_tokens final) /\
  (length (predicted_tokens final) = 50 \/
   exists m0,
     decode (top1 (fst (model (tokens_tensor final) m0))) = eos_token).
Proof.
  cbv zeta. unfold generate.
  destruct (generate_loop_spec 50 (mkGenState encoded_text None []))
    as (idxs & Et & Ep & Hlen & Hall & Hstop).
  cbn [predicted_tokens app] in Ep. rewrite Ep. split.
  - intros Hin. apply in_map_iff in Hin. destruct Hin as (i & Hi & Hin).
    rewrite Forall_forall in Hall. exact (Hall i Hin Hi).
  - rewrite length_map.
    destruct (Nat.eq_dec (length idxs) 50) as [E | E]; [now left | right].
    apply Hstop. lia.
Qed.

End TextGenFacts.

(** ** Instances of the further properties *)

Section MoreInstances.

Import Examples MoreExamples.

Local Ltac shapes := repeat split; repeat constructor.

Lemma choice1_contract : choice_contract choice1.
Proof.
  intros size k n g. simpl. split; [apply repeat_length |].
  apply Forall_forall. intros b Hb. apply repeat_spec in Hb. subst. lia.
Qed.

Lemma X1_witness :
  (2 <= size1 (batch_of 3 1 [seq1; seq2]) /\
   take_steps 2 (batch_of 3 1 [seq1; seq2])
   = take_steps 2 (batch_of 3 1 [seq1_alt; seq2])) /\
  lstm_state_after lstm_model (batch_of 3 1 [seq1; seq2]) 2
  = lstm_state_after lstm_model (batch_of 3 1 [seq1_alt; seq2]) 2 /\
  gru_state_after gru_model (batch_of 3 1 [seq1; seq2]) 2
  = gru_state_after gru_model (batch_of 3 1 [seq1_alt; seq2]) 2.
Proof.
  split; [split; [simpl; lia | reflexivity] |].
  destruct (@X1_state_depends_on_prefix R _ lstm_model gru_model
              (batch_of 3 1 [seq1; seq2]) (batch_of 3 1 [seq1_alt; seq2]) 2)
    as (E1 & E2 & _); [simpl; lia | reflexivity |].
  split; assumption.
Defined.

Lemma X2_witness :
  (wf_LSTMModel lstm_model /\ wf_GRUModel gru_model /\
   wf_tensor3 (batch_of 3 1 [seq1; seq2]) /\
   wf_tensor3 (batch_of 3 1 [seq1; seq1_alt]) /\
   nth 0 [seq1; seq2] [] = nth 0 [seq1; seq1_alt] []) /\
  (exists y y',
     LSTMModel_forward (batch_of 3 1 [seq1; seq2]) lstm_model
     = (Ok y, lstm_model) /\
     LSTMModel_forward (batch_of 3 1 [seq1; seq1_alt]) lstm_model
     = (Ok y', lstm_model) /\
     nth 0 (rows y) [] = nth 0 (rows y') []) /\
  (exists y y',
     GRUModel_forward (batch_of 3 1 [seq1; seq2]) gru_model
     = (Ok y, gru_model) /\
     GRUModel_forward (batch_of 3 1 [seq1; seq1_alt]) gru_model
     = (Ok y', gru_model) /\
     nth 0 (rows y) [] = nth 0 (rows y') []).
Proof.
  split; [repeat split; repeat constructor |].
  destruct (@X2_row_independent_of_other_rows R _ lstm_model gru_model
              (batch_of 3 1 [seq1; seq2]) (batch_of 3 1 [seq1; seq1_alt]) 0)
    as ((y & y' & E & E' & _ & _ & Er) & (z & z' & G & G' & _ & _ & Gr));
    first [ reflexivity | simpl; lia | solve [shapes] | idtac ].
  split.
  - exists y, y'. repeat split; assumption.
  - exists z, z'. repeat split; assumption.
Defined.

Lemma X3_witness :
  size1 no_steps = 0 /\
  LSTMModel_forward no_steps lstm_model =
    (F_linear (zeros 1 2) (weight (lstm_fc lstm_model))
       (bias (lstm_fc lstm_model)), lstm_model) /\
  GRUModel_forward no_steps gru_model =
    (F_linear (zeros 1 2) (weight (gru_fc gru_model))
       (bias (gru_fc gru_model)), gru_model).
Proof.
  split; [reflexivity |].
  destruct (@X3_no_time_steps R _ lstm_model lstm_model gru_model gru_model
              no_steps) as (E1 & E2 & _); try reflexivity.
  split; assumption.
Defined.

Lemma X4_witness :
  (wf_LSTMCell lstm_cell /\ wf_GRUCell gru_cell /\
   has_shape x_t 2 1 /\ has_shape state3 3 2) /\
  LSTMCell_forward x_t (Some state3, Some state3) lstm_cell
  = (Raise RuntimeError, lstm_cell) /\
  GRUCell_forward x_t (Some state3) gru_cell = (Raise RuntimeError, gru_cell).
Proof.
  split; [shapes |].
  apply (@X4_batch_mismatch_raises R _ lstm_cell gru_cell
           x_t state3 state3 x_t state3 2 3);
    first [ simpl; lia | solve [shapes] ].
Defined.

Lemma X5_witness :
  (wf_LSTMCell lstm_cell /\ wf_GRUCell gru_cell /\
   ncols x_t <> lstm_hidden_size lstm_cell /\
   ncols x_t <> gru_hidden_size gru_cell) /\
  LSTMCell_forward x_t (Some x_t, Some state) lstm_cell
  = (Raise RuntimeError, lstm_cell) /\
  GRUCell_forward x_t (Some x_t) gru_cell = (Raise RuntimeError, gru_cell).
Proof.
  split; [split; [shapes | split; [shapes | split; simpl; lia]] |].
  apply (@X5_state_width_mismatch_raises R _ lstm_cell gru_cell
           x_t x_t state);
    first [ simpl; lia | solve [shapes] ].
Defined.

Lemma X6_witness :
  (wf_LSTMCell lstm_cell /\ has_shape x_t 2 1 /\ has_shape state 2 2) /\
  LSTMCell_forward x_t (Some state, Some state) lstm_cell
  = (LSTMCell_step_by_gate lstm_cell x_t state state, lstm_cell).
Proof.
  split; [shapes |].
  apply (@X6_fused_gates_equal_separate_gates R _ lstm_cell
           x_t state state 2);
    first [ simpl; lia | solve [shapes] ].
Defined.

Lemma X7_witness :
  (choice_contract choice1 /\ 0 < 20 /\ 20 <= 127) /\
  exists raw g',
    generate_dataset (T := R) randint0 choice1 20 3 0 =
    (Ok (mkTensorDataset (map float_unsqueeze raw)
           (map (fun q => Z.of_nat (count_occ Nat.eq_dec q 1)) raw)), g') /\
    length raw = 3 /\ Forall (is_bit_sequence 20) raw.
Proof.
  split; [split; [exact choice1_contract | lia] |].
  apply (@X7_generate_dataset_labels_count_ones R _ nat randint0 choice1
           20 3 0 choice1_contract); lia.
Defined.

Lemma X8_witness :
  (choice_contract choice1 /\ 20 <= 127) /\
  ((0 < 20 \/ 3 = 0) <->
   exists ds g',
     generate_dataset (T := R) randint0 choice1 20 3 0 = (Ok ds, g') /\
     length (ds_sequences ds) = 3 /\
     length (ds_labels ds) = 3 /\
     Forall (fun l => (0 <= l <= Z.of_nat 20)%Z) (ds_labels ds)) /\
  generate_dataset (T := R) randint0 choice1 0 4 0 = (Raise ValueError, 0) /\
  generate_dataset (T := R) randint0 choice1 20 0 0
  = (Ok (mkTensorDataset [] []), 0).
Proof.
  split; [split; [exact choice1_contract | lia] |].
  apply (@X8_generate_dataset_edges R _ nat randint0 choice1
           20 3 0 choice1_contract); lia.
Defined.

Lemma X9_witness :
  (choice_contract choice1 /\
   wf_LSTMModel lstm_model /\ wf_GRUModel gru_model /\
   generate_dataset (T := R) randint0 choice1 3 2 0
   = (Ok (mkTensorDataset
            [float_unsqueeze [1; 1; 1]; float_unsqueeze [1; 1; 1]]
            [3%Z; 3%Z]), 4)) /\
  (exists y,
     LSTMModel_forward (collate 3 [float_unsqueeze [1; 1; 1]]) lstm_model
     = (Ok y, lstm_model) /\ has_shape y 1 1) /\
  (exists y,
     GRUModel_forward (collate 3 [float_unsqueeze [1; 1; 1]]) gru_model
     = (Ok y, gru_model) /\ has_shape y 1 1).
Proof.
  split; [split; [exact choice1_contract | split; [shapes |
          split; [shapes | reflexivity]]] |].
  apply (@X9_models_accept_generated_batches R _ nat randint0 choice1
           lstm_model gru_model 3 2 0 4
           (mkTensorDataset
              [float_unsqueeze [1; 1; 1]; float_unsqueeze [1; 1; 1]]
              [3%Z; 3%Z])
           [float_unsqueeze [1; 1; 1]]);
    first [ exact choice1_contract | reflexivity | simpl; lia
          | solve [shapes]
          | intros s [<- | []]; simpl; auto ].
Defined.

End MoreInstances.
